(** * The network layer of arangod: request dispatch with retries

    A shallow embedding of [arangod/Network/Methods.cpp] (the single-attempt
    [sendRequest], the retrying [sendRequestRetry] with its [RequestsState]
    state machine) and of [arangod/Network/NetworkFeature.cpp] (option
    validation, publication and withdrawal of the connection pool).

    The code is event driven: a method runs to completion, issues
    asynchronous operations (a send on a leased connection, a wait on a
    steady timer) and is re-entered from their handlers.  A method is
    embedded as a function from the receiver's state and the values it
    reads from its surroundings (clock, topology, pool pointer) to the new
    state, the operation left outstanding and the list of calls it made. *)

From Stdlib Require Import ZArith List String Bool Lia.
Import ListNotations.

Local Open Scope Z_scope.

(** ** Time

    [std::chrono::steady_clock] counts ticks of one nanosecond (libstdc++
    and libc++); a time point and a [steady_clock::duration] are tick
    counts.  [network::Timeout] is declared in a header that is not among
    the sources; a value of that type is taken as the tick count it
    converts to. *)

Definition time_point := Z.
Definition duration := Z.

Definition ticks_per_milli : Z := 1000000.

Definition milliseconds (n : Z) : duration := n * ticks_per_milli.
Definition seconds (n : Z) : duration := n * 1000 * ticks_per_milli.

(** [std::chrono::duration_cast<std::chrono::milliseconds>(d).count()]:
    integer division that truncates toward zero. *)
Definition duration_cast_milliseconds (d : duration) : Z :=
  Z.quot d ticks_per_milli.

(** ** The transport library (fuerte), as far as the code uses it *)

Module fuerte.

Inductive RestVerb :=
| Delete | Get | Post | Put | Head | Patch | Options.

(** Modelled from the spec: fuerte's [types.h] is not among the sources.
    The error code is one of a small closed set: success, canceled,
    timeout, and the transport's own conditions, of which the code names
    the connection failure.  [Error] is the integral code of a condition
    and [intToError], [errorToInt] convert between the two; the embedding
    identifies a condition with its code. *)
Inductive ErrorCondition :=
| NoError
| CouldNotConnect
| Timeout
| Canceled
| OtherError (code : Z).

Definition Error := ErrorCondition.
Definition errorToInt (c : ErrorCondition) : Error := c.
Definition intToError (e : Error) : ErrorCondition := e.

Definition StatusCode := Z.
Definition StatusOK : StatusCode := 200.
Definition StatusCreated : StatusCode := 201.
Definition StatusAccepted : StatusCode := 202.
Definition StatusNoContent : StatusCode := 204.
Definition StatusNotFound : StatusCode := 404.

Definition Slice := list Byte.byte.

(** [fuerte::Response]: the status line and the body. *)
Record Response := mkResponse {
  statusCode : StatusCode;
  slice : Slice
}.

Definition StringMap := list (string * string).

(** [fuerte::Request]: the header fields the code sets, the payload and
    the timeout in milliseconds.  [meta] lists the [addMeta] calls in the
    order they are made. *)
Record Request := mkRequest {
  restVerb : RestVerb;
  path : string;
  database : string;
  meta : StringMap;
  payload : list Byte.byte;
  timeout : Z
}.

End fuerte.

Import fuerte.

(** ** What the code takes from the rest of the server

    Functions and constants of the repository whose definitions are not
    among the sources: the body decoder of [Network/Utils], fuerte's path
    parser, the time-stamp encoder of the hybrid logical clock, the static
    strings and the error number of a missing data source. *)
Class Externals := {
  errorCodeFromBody : Slice -> Z;
  (** [header.parseArangoPath(path)]: the data base named by a leading
      [/_db/<name>/] (empty when there is none) and the remaining path. *)
  parseArangoPath : string -> string * string;
  encodeTimeStamp : Z -> string;
  SystemDatabase : string;
  HLCHeader : string;
  ClusterCommSource : string;
  TRI_ERROR_ARANGO_DATA_SOURCE_NOT_FOUND : Z
}.

Definition DestinationId := string.
Definition EndpointSpec := string.
Definition Headers := StringMap.

(** ** NetworkFeature *)

Module NetworkFeature.

Definition Addr := positive.

(** [network::ConnectionPool], as far as the feature touches it: its
    configuration and whether [shutdown()] has run.  [addr] is the address
    of the object, the value of a pointer to it. *)
Record Config := mkConfig {
  numIOThreads : Z;
  maxOpenConnections : Z;
  connectionTtlMilli : Z;
  verifyHosts : bool
}.

Record ConnectionPool := mkPool {
  addr : Addr;
  config : Config;
  isShutdown : bool
}.

(** The feature's members, and the static atomic [_poolPtr]. *)
Record t := mk {
  _numIOThreads : Z;
  _maxOpenConnections : Z;
  _connectionTtlMilli : Z;
  _verifyHosts : bool;
  _pool : option ConnectionPool;
  _poolPtr : option Addr
}.

(** The constructor's member initialisers; [_poolPtr] starts null. *)
Definition create : t :=
  {| _numIOThreads := 1;
     _maxOpenConnections := 128;
     _connectionTtlMilli := 5 * 60 * 1000;
     _verifyHosts := false;
     _pool := None;
     _poolPtr := None |}.

Definition validateOptions (f : t) : t :=
  {| _numIOThreads := Z.min 1 (Z.max 8 (_numIOThreads f));
     _maxOpenConnections :=
       if _maxOpenConnections f <? 8 then 8 else _maxOpenConnections f;
     _connectionTtlMilli :=
       if _connectionTtlMilli f <? 10000 then 10000 else _connectionTtlMilli f;
     _verifyHosts := _verifyHosts f;
     _pool := _pool f;
     _poolPtr := _poolPtr f |}.

(** [prepare()]: [a] is the address [std::make_unique] returns. *)
Definition prepare (a : Addr) (f : t) : t :=
  let config :=
    {| numIOThreads := _numIOThreads f;
       maxOpenConnections := _maxOpenConnections f;
       connectionTtlMilli := _connectionTtlMilli f;
       verifyHosts := _verifyHosts f |} in
  {| _numIOThreads := _numIOThreads f;
     _maxOpenConnections := _maxOpenConnections f;
     _connectionTtlMilli := _connectionTtlMilli f;
     _verifyHosts := _verifyHosts f;
     _pool := Some {| addr := a; config := config; isShutdown := false |};
     _poolPtr := Some a |}.

(** [beginShutdown()] is two statements.  The first stores the null
    pointer. *)
Definition beginShutdown_store (f : t) : t :=
  {| _numIOThreads := _numIOThreads f;
     _maxOpenConnections := _maxOpenConnections f;
     _connectionTtlMilli := _connectionTtlMilli f;
     _verifyHosts := _verifyHosts f;
     _pool := _pool f;
     _poolPtr := None |}.

(** The second shuts the pool down, when there is one. *)
Definition beginShutdown_pool (f : t) : t :=
  {| _numIOThreads := _numIOThreads f;
     _maxOpenConnections := _maxOpenConnections f;
     _connectionTtlMilli := _connectionTtlMilli f;
     _verifyHosts := _verifyHosts f;
     _pool :=
       match _pool f with
       | Some p => Some {| addr := addr p; config := config p; isShutdown := true |}
       | None => None
       end;
     _poolPtr := _poolPtr f |}.

Definition beginShutdown (f : t) : t :=
  beginShutdown_pool (beginShutdown_store f).

(** The states a thread that runs beside [beginShutdown()] can see: before
    it, between its two statements, after it. *)
Definition beginShutdown_states (f : t) : list t :=
  [f; beginShutdown_store f; beginShutdown f].

(** Modelled from the spec: the accessor [NetworkFeature::pool()] is
    declared in a header that is not among the sources.  The availability
    signal is a pointer that is published and consulted; the accessor
    loads [_poolPtr]. *)
Definition pool (f : t) : option Addr := _poolPtr f.

Definition stop (f : t) : t := f.
Definition unprepare (f : t) : t := f.

End NetworkFeature.


(** ** Methods.cpp *)

Module network.

(** [network::Response]: destination, error code, the raw response or a
    null pointer. *)
Record Response := mkResponse {
  destination : DestinationId;
  error : Error;
  response : option fuerte.Response
}.

(** [ServerState]: the role of this server and its id. *)
Inductive RoleEnum :=
| ROLE_SINGLE | ROLE_DBSERVER | ROLE_COORDINATOR | ROLE_AGENT.

Record ServerState := mkServerState {
  role : RoleEnum;
  getId : string
}.

Definition isCoordinator (s : ServerState) : bool :=
  match role s with ROLE_COORDINATOR => true | _ => false end.
Definition isDBServer (s : ServerState) : bool :=
  match role s with ROLE_DBSERVER => true | _ => false end.
Definition isAgent (s : ServerState) : bool :=
  match role s with ROLE_AGENT => true | _ => false end.

(** What a call reads from its surroundings at the moment it runs: the
    steady clock, the hybrid logical clock, the stopping flag of the
    application server, the server state, the id of the local agent
    ([AgencyFeature::AGENT], null when there is none), the cluster topology
    behind [resolveDestination] and the network feature. *)
Record World := mkWorld {
  steady_clock_now : time_point;
  TRI_HybridLogicalClock : Z;
  isStopping : bool;
  serverState : ServerState;
  AGENT : option string;
  resolveDestination : DestinationId -> option EndpointSpec;
  feature : NetworkFeature.t
}.

(** The calls a method makes on its collaborators, in the order it makes
    them. *)
Inductive Action :=
| Resolve (d : DestinationId)
| LeaseConnection (pool : NetworkFeature.Addr) (endpoint : EndpointSpec)
| Send (req : Request)
| Callback (r : Response)
| NewSteadyTimer
| ExpiresAt (dueTime : time_point)
| AsyncWait.

(** [futures::Promise<network::Response>]: empty or holding its value;
    setting a value twice throws. *)
Definition Promise := option Response.

Definition setValue (p : Promise) (r : Response) : option Promise :=
  match p with
  | None => Some (Some r)
  | Some _ => None
  end.

Section WithExternals.

Context `{Externals}.

Definition prepareRequest (w : World) (type : RestVerb) (path : string)
    (payload : list Byte.byte) (timeout : duration) (headers : Headers)
  : Request :=
  let parsed := parseArangoPath path in
  let database :=
    if String.eqb (fst parsed) EmptyString then SystemDatabase else fst parsed in
  let meta := headers in
  let meta := meta ++ [(HLCHeader, encodeTimeStamp (TRI_HybridLogicalClock w))] in
  let state := serverState w in
  let meta :=
    if isCoordinator state || isDBServer state then
      meta ++ [(ClusterCommSource, getId state)]
    else if isAgent state then
      match AGENT w with
      | Some id => meta ++ [(ClusterCommSource, String.append "AGENT-" id)]
      | None => meta
      end
    else meta in
  {| restVerb := type;
     fuerte.path := snd parsed;
     database := database;
     meta := meta;
     payload := payload;
     timeout := duration_cast_milliseconds timeout |}.

(** *** The single-attempt entry point

    What a dispatch leaves behind: the calls it made, and the value of the
    future it returns when that future is ready at once ([makeFuture]);
    otherwise the future waits for the promise, which the callback handed
    to the connection fulfils. *)
Record Dispatched := mkDispatched {
  calls : list Action;
  ready : option Response
}.

(** [None]: the assertion on the resolved endpoint failed. *)
Definition sendRequest (w : World) (destination : DestinationId)
    (type : RestVerb) (path : string) (payload : list Byte.byte)
    (timeout : duration) (headers : Headers) : option Dispatched :=
  match NetworkFeature.pool (feature w) with
  | None =>
    Some {| calls := [];
            ready := Some (mkResponse destination (errorToInt Canceled) None) |}
  | Some pool =>
    match resolveDestination w destination with
    | None =>
      Some {| calls := [Resolve destination];
              ready := Some (mkResponse destination (errorToInt Canceled) None) |}
    | Some endpoint =>
      if String.eqb endpoint EmptyString then None
      else
        let req := prepareRequest w type path payload timeout headers in
        Some {| calls := [Resolve destination; LeaseConnection pool endpoint; Send req];
                ready := None |}
    end
  end.

(** The callback [sendRequest] hands to the connection sets this value on
    the promise. *)
Definition sendRequest_callback (destination : DestinationId) (err : Error)
    (res : option fuerte.Response) : Response :=
  mkResponse destination err res.

End WithExternals.

(** *** The retrying request *)

Module RequestsState.

(** The members of [RequestsState<F>].  The callback [_cb] is not a member
    of the embedding: a call of it is the action [Callback].  [_timer] is
    null or owns a timer, of which the expiry is kept. *)
Record t := mk {
  _destination : DestinationId;
  _type : RestVerb;
  _path : string;
  _payload : list Byte.byte;
  _headers : Headers;
  _startTime : time_point;
  _endTime : time_point;
  _retryOnCollNotFound : bool;
  _timer : option time_point
}.

(** The constructor; [now] is the clock it reads. *)
Definition create (now : time_point) (destination : DestinationId)
    (type : RestVerb) (path : string) (payload : list Byte.byte)
    (timeout : duration) (headers : Headers) (retryNotFound : bool) : t :=
  {| _destination := destination;
     _type := type;
     _path := path;
     _payload := payload;
     _headers := headers;
     _startTime := now;
     _endTime := now + timeout;
     _retryOnCollNotFound := retryNotFound;
     _timer := None |}.

Definition set_timer (st : t) (dueTime : time_point) : t :=
  {| _destination := _destination st;
     _type := _type st;
     _path := _path st;
     _payload := _payload st;
     _headers := _headers st;
     _startTime := _startTime st;
     _endTime := _endTime st;
     _retryOnCollNotFound := _retryOnCollNotFound st;
     _timer := Some dueTime |}.

(** The asynchronous operation a method leaves outstanding when it
    returns. *)
Inductive Outstanding :=
| Nothing
| SendInFlight
| TimerWaiting.

(** What a method call results in; [None] stands for a failed
    [TRI_ASSERT]. *)
Record Step := mkStep {
  state : t;
  outstanding : Outstanding;
  calls : list Action
}.

Section WithExternals.

Context `{Externals}.

Definition sendRequest (w : World) (st : t) : option Step :=
  let now := steady_clock_now w in
  if (now >? _endTime st) || isStopping w then
    Some (mkStep st Nothing
            [Callback (mkResponse (_destination st) (errorToInt Timeout) None)])
  else
    match resolveDestination w (_destination st) with
    | None =>
      Some (mkStep st Nothing
              [Resolve (_destination st);
               Callback (mkResponse (_destination st) (errorToInt Canceled) None)])
    | Some endpoint =>
      match NetworkFeature.pool (feature w) with
      | None =>
        Some (mkStep st Nothing
                [Resolve (_destination st);
                 Callback (mkResponse (_destination st) (errorToInt Canceled) None)])
      | Some pool =>
        let timeout := duration_cast_milliseconds (_endTime st - _startTime st) in
        if timeout >? 0 then
          let req :=
            prepareRequest w (_type st) (_path st) (_payload st)
              (milliseconds timeout) (_headers st) in
          Some (mkStep st SendInFlight
                  [Resolve (_destination st); LeaseConnection pool endpoint; Send req])
        else None
      end
    end.

(** The body under the case labels [CouldNotConnect] and [Timeout], which
    the [NoError] case falls through to for a retryable not-found.  [now1]
    and [now2] are the two readings of the clock. *)
Definition handleResponse_retry (st : t) (err : Error)
    (res : option fuerte.Response) (now1 now2 : time_point) : Step :=
  let tryAgainAfter := now1 - _startTime st in
  let tryAgainAfter :=
    if tryAgainAfter <? milliseconds 200 then milliseconds 200
    else if tryAgainAfter >? seconds 10 then seconds 10
    else tryAgainAfter in
  let dueTime := now2 + tryAgainAfter in
  if dueTime >=? _endTime st then
    mkStep st Nothing [Callback (mkResponse (_destination st) err res)]
  else
    mkStep (set_timer st dueTime) TimerWaiting
      ((match _timer st with None => [NewSteadyTimer] | Some _ => [] end)
         ++ [ExpiresAt dueTime; AsyncWait]).

Definition handleResponse (st : t) (err : Error)
    (res : option fuerte.Response) (now1 now2 : time_point) : option Step :=
  match intToError err with
  | NoError =>
    match res with
    | None => None
    | Some r =>
      if (statusCode r =? StatusOK) || (statusCode r =? StatusCreated)
         || (statusCode r =? StatusAccepted) || (statusCode r =? StatusNoContent)
      then
        Some (mkStep st Nothing
                [Callback (mkResponse (_destination st) (errorToInt NoError) res)])
      else if (statusCode r =? StatusNotFound) && _retryOnCollNotFound st
              && (TRI_ERROR_ARANGO_DATA_SOURCE_NOT_FOUND =? errorCodeFromBody (slice r))
      then Some (handleResponse_retry st err res now1 now2)
      else
        Some (mkStep st Nothing
                [Callback (mkResponse (_destination st) (errorToInt Canceled) res)])
    end
  | CouldNotConnect | Timeout =>
    Some (handleResponse_retry st err res now1 now2)
  | _ =>
    Some (mkStep st Nothing [Callback (mkResponse (_destination st) err res)])
  end.

End WithExternals.

End RequestsState.

(** *** The life of one request

    After [sendRequestRetry] returns, the request is driven by the handlers
    of its asynchronous operations: the callback of the send, which calls
    [handleResponse], and the wait handler of the timer, which calls
    [sendRequest] unless it is given an error code. *)
Inductive Event :=
| SendCompleted (err : Error) (res : option fuerte.Response)
    (now1 now2 : time_point)
| TimerExpired (w : World)
| TimerAborted.

(** The calls of a whole life, the state and the outstanding operation at
    its end, and whether an assertion failed on the way. *)
Record Lifecycle := mkLifecycle {
  final : RequestsState.t;
  waiting : RequestsState.Outstanding;
  trace : list Action;
  assertionFailed : bool
}.

Definition callbacks (acts : list Action) : list Response :=
  flat_map (fun a => match a with Callback r => [r] | _ => [] end) acts.

Definition sends (acts : list Action) : list Request :=
  flat_map (fun a => match a with Send req => [req] | _ => [] end) acts.

Definition leases (acts : list Action) : list (NetworkFeature.Addr * EndpointSpec) :=
  flat_map (fun a => match a with LeaseConnection p e => [(p, e)] | _ => [] end) acts.

Definition resolutions (acts : list Action) : list DestinationId :=
  flat_map (fun a => match a with Resolve d => [d] | _ => [] end) acts.

Definition armings (acts : list Action) : list time_point :=
  flat_map (fun a => match a with ExpiresAt d => [d] | _ => [] end) acts.

(** The promise behind the future of [sendRequestRetry]: the callback sets
    its value.  [None]: a value was set twice. *)
Fixpoint fulfil (p : Promise) (rs : list Response) : option Promise :=
  match rs with
  | [] => Some p
  | r :: rs' =>
    match setValue p r with
    | Some p' => fulfil p' rs'
    | None => None
    end
  end.

Section WithExternals.

Context `{Externals}.

(** The handler an event runs.  An event whose handler is not pending runs
    nothing. *)
Definition react (st : RequestsState.t) (o : RequestsState.Outstanding)
    (ev : Event) : option RequestsState.Step :=
  match o, ev with
  | RequestsState.SendInFlight, SendCompleted err res now1 now2 =>
    RequestsState.handleResponse st err res now1 now2
  | RequestsState.TimerWaiting, TimerExpired w =>
    RequestsState.sendRequest w st
  | RequestsState.TimerWaiting, TimerAborted =>
    Some (RequestsState.mkStep st RequestsState.Nothing [])
  | _, _ => Some (RequestsState.mkStep st o [])
  end.

Fixpoint run (st : RequestsState.t) (o : RequestsState.Outstanding)
    (evs : list Event) : Lifecycle :=
  match evs with
  | [] => mkLifecycle st o [] false
  | ev :: evs' =>
    match react st o ev with
    | None => mkLifecycle st o [] true
    | Some s =>
      let l := run (RequestsState.state s) (RequestsState.outstanding s) evs' in
      mkLifecycle (final l) (waiting l)
        (RequestsState.calls s ++ trace l) (assertionFailed l)
    end
  end.

(** [sendRequestRetry]: builds the state and makes the first attempt.
    [now0] is the clock the constructor reads, [w] what the attempt sees. *)
Definition sendRequestRetry (now0 : time_point) (w : World)
    (destination : DestinationId) (type : RestVerb) (path : string)
    (payload : list Byte.byte) (timeout : duration) (headers : Headers)
    (retryNotFound : bool) : option RequestsState.Step :=
  let rs :=
    RequestsState.create now0 destination type path payload timeout headers
      retryNotFound in
  RequestsState.sendRequest w rs.

(** A request from its creation through the events [evs]. *)
Definition lifecycle (now0 : time_point) (w : World)
    (destination : DestinationId) (type : RestVerb) (path : string)
    (payload : list Byte.byte) (timeout : duration) (headers : Headers)
    (retryNotFound : bool) (evs : list Event) : Lifecycle :=
  match
    sendRequestRetry now0 w destination type path payload timeout headers
      retryNotFound
  with
  | None =>
    mkLifecycle
      (RequestsState.create now0 destination type path payload timeout headers
         retryNotFound)
      RequestsState.Nothing [] true
  | Some s =>
    let l := run (RequestsState.state s) (RequestsState.outstanding s) evs in
    mkLifecycle (final l) (waiting l)
      (RequestsState.calls s ++ trace l) (assertionFailed l)
  end.

End WithExternals.

End network.

(** ** ClusterTypes.cpp: the revision of the analyzers *)

Module velocypack.

(** A velocypack value, as far as the code inspects one.  [VNone] is the
    slice [get] returns for a key that is not there.  Of a double only its
    conversion to [uint64_t] is kept: [None] when the conversion throws. *)
#[warnings="-register-all"]
Inductive Slice :=
| VNone
| VNull
| VBool (b : bool)
| VInt (z : Z)
| VUInt (n : Z)
| VDouble (asUInt64 : option Z)
| VString (s : string)
| VArray (items : list Slice)
| VObject (fields : list (string * Slice)).

Definition isNone (s : Slice) : bool :=
  match s with VNone => true | _ => false end.

Definition isObject (s : Slice) : bool :=
  match s with VObject _ => true | _ => false end.

Definition isNumber (s : Slice) : bool :=
  match s with VInt _ | VUInt _ | VDouble _ => true | _ => false end.

Definition isString (s : Slice) : bool :=
  match s with VString _ => true | _ => false end.

Fixpoint lookup (key : string) (fields : list (string * Slice)) : Slice :=
  match fields with
  | [] => VNone
  | (k, v) :: rest => if String.eqb k key then v else lookup key rest
  end.

(** [slice.get(key)] on an object; the code calls it on nothing else. *)
Definition get (s : Slice) (key : string) : Slice :=
  match s with
  | VObject fields => lookup key fields
  | _ => VNone
  end.

Definition hasKey (s : Slice) (key : string) : bool :=
  negb (isNone (get s key)).

(** [slice.getNumber<uint64_t>()]; [None]: it throws (a negative integer,
    a double out of range, not a number). *)
Definition getNumber_uint64 (s : Slice) : option Z :=
  match s with
  | VUInt n => Some n
  | VInt z => if z <? 0 then None else Some z
  | VDouble d => d
  | _ => None
  end.

Definition getString (s : Slice) : string :=
  match s with VString v => v | _ => EmptyString end.

End velocypack.

(** What [ClusterTypes.cpp] takes from headers that are not among the
    sources: whether a reboot id of a given value counts as initialized,
    the least revision, and the four attribute names. *)
Class ClusterTypesExternals := {
  RebootId_initialized : Z -> bool;
  AnalyzersRevision_MIN : Z;
  StaticStrings_AnalyzersRevision : string;
  StaticStrings_AnalyzersBuildingRevision : string;
  StaticStrings_AttrCoordinator : string;
  StaticStrings_AttrCoordinatorRebootId : string
}.

Module AnalyzersRevision.

(** The four members [toVelocyPack] reads.  The constructor is declared in
    the header; it is taken to store its four arguments in them, in the
    order [getEmptyRevision] and [fromVelocyPack] pass them. *)
Record t := mk {
  _revision : Z;
  _buildingRevision : Z;
  _serverID : string;
  _rebootID : Z
}.

(** What [fromVelocyPack] comes back with: the revision, a null pointer
    with the error text, or an exception out of [getNumber]. *)
Inductive Parsed :=
| Revision (r : t)
| Error (error : string)
| Exception.

Section WithExternals.

Context `{ClusterTypesExternals}.

Definition getEmptyRevision : t :=
  mk AnalyzersRevision_MIN AnalyzersRevision_MIN EmptyString 0.

Definition nonEmpty (s : string) : bool := negb (String.eqb s EmptyString).

(** [toVelocyPack]: the object it adds to the builder; [None] stands for
    the failed [TRI_ASSERT]. *)
Definition toVelocyPack (r : t) : option velocypack.Slice :=
  let fields :=
    [(StaticStrings_AnalyzersRevision, velocypack.VUInt (_revision r));
     (StaticStrings_AnalyzersBuildingRevision,
      velocypack.VUInt (_buildingRevision r))] in
  if (negb (nonEmpty (_serverID r)) && negb (RebootId_initialized (_rebootID r)))
     || (nonEmpty (_serverID r) && RebootId_initialized (_rebootID r))
  then
    let fields :=
      if nonEmpty (_serverID r) then
        fields ++ [(StaticStrings_AttrCoordinator,
                    velocypack.VString (_serverID r))]
      else fields in
    let fields :=
      if RebootId_initialized (_rebootID r) then
        fields ++ [(StaticStrings_AttrCoordinatorRebootId,
                    velocypack.VUInt (_rebootID r))]
      else fields in
    Some (velocypack.VObject fields)
  else None.

Definition fromVelocyPack (slice : velocypack.Slice) : Parsed :=
  if negb (velocypack.isObject slice) then
    Error "Analyzers in the plan is not a valid json object."
  else
    let revisionSlice := velocypack.get slice StaticStrings_AnalyzersRevision in
    if negb (velocypack.isNumber revisionSlice) then
      Error (String.append StaticStrings_AnalyzersRevision
               " key is missing or not a number")
    else
      let buildingRevisionSlice :=
        velocypack.get slice StaticStrings_AnalyzersBuildingRevision in
      if negb (velocypack.isNumber buildingRevisionSlice) then
        Error (String.append StaticStrings_AnalyzersBuildingRevision
                 " key is missing or not a number")
      else
        let coordinatorSlice :=
          velocypack.get slice StaticStrings_AttrCoordinator in
        if velocypack.hasKey slice StaticStrings_AttrCoordinator
           && negb (velocypack.isString coordinatorSlice)
        then Error (String.append StaticStrings_AttrCoordinator " is not a string")
        else
          let coordinatorID :=
            if velocypack.hasKey slice StaticStrings_AttrCoordinator
            then velocypack.getString coordinatorSlice
            else EmptyString in
          let rebootIDSlice :=
            velocypack.get slice StaticStrings_AttrCoordinatorRebootId in
          if velocypack.hasKey slice StaticStrings_AttrCoordinatorRebootId
             && negb (velocypack.isNumber rebootIDSlice)
          then Error (String.append StaticStrings_AttrCoordinatorRebootId
                        " key is not a number")
          else
            let rebootID :=
              if velocypack.hasKey slice StaticStrings_AttrCoordinatorRebootId
              then velocypack.getNumber_uint64 rebootIDSlice
              else Some 0 in
            match
              rebootID,
              velocypack.getNumber_uint64 revisionSlice,
              velocypack.getNumber_uint64 buildingRevisionSlice
            with
            | Some rebootID, Some revision, Some buildingRevision =>
              Revision (mk revision buildingRevision coordinatorID rebootID)
            | _, _, _ => Exception
            end.

End WithExternals.

End AnalyzersRevision.

Import network.

(** ** Vocabulary of the properties *)

(** [x] clamped to the closed interval from [lo] to [hi]. *)
Definition clamp (lo hi x : Z) : Z := Z.max lo (Z.min hi x).

Definition successful (s : StatusCode) : Prop :=
  s = StatusOK \/ s = StatusCreated \/ s = StatusAccepted \/ s = StatusNoContent.

(** The completions [handleResponse] sends to the backoff: a connection
    failure, a timeout of the transport, or a not-found answer to a request
    that asked for a retry, whose body carries the error number of a
    missing data source. *)
Definition retryableNotFound `{Externals} (st : RequestsState.t)
    (r : fuerte.Response) : Prop :=
  statusCode r = StatusNotFound /\
  RequestsState._retryOnCollNotFound st = true /\
  errorCodeFromBody (slice r) = TRI_ERROR_ARANGO_DATA_SOURCE_NOT_FOUND.

Definition retryable `{Externals} (st : RequestsState.t) (err : Error)
    (res : option fuerte.Response) : Prop :=
  intToError err = CouldNotConnect \/
  intToError err = Timeout \/
  (intToError err = NoError /\
   exists r, res = Some r /\ retryableNotFound st r).

(** The members a request is created with: all but the timer. *)
Definition sameRequest (a b : RequestsState.t) : Prop :=
  RequestsState._destination a = RequestsState._destination b /\
  RequestsState._type a = RequestsState._type b /\
  RequestsState._path a = RequestsState._path b /\
  RequestsState._payload a = RequestsState._payload b /\
  RequestsState._headers a = RequestsState._headers b /\
  RequestsState._startTime a = RequestsState._startTime b /\
  RequestsState._endTime a = RequestsState._endTime b /\
  RequestsState._retryOnCollNotFound a = RequestsState._retryOnCollNotFound b.

(** The pool a published pointer refers to is there and has not been shut
    down. *)
Definition publishedPoolAlive (f : NetworkFeature.t) : Prop :=
  forall a, NetworkFeature.pool f = Some a ->
    exists p, NetworkFeature._pool f = Some p /\
              NetworkFeature.addr p = a /\
              NetworkFeature.isShutdown p = false.

(** The calls the application server makes on the feature. *)
Inductive FeatureCall :=
| CallValidateOptions
| CallPrepare (a : NetworkFeature.Addr)
| CallBeginShutdown
| CallStop
| CallUnprepare.

Definition featureCall (f : NetworkFeature.t) (c : FeatureCall)
  : NetworkFeature.t :=
  match c with
  | CallValidateOptions => NetworkFeature.validateOptions f
  | CallPrepare a => NetworkFeature.prepare a f
  | CallBeginShutdown => NetworkFeature.beginShutdown f
  | CallStop => NetworkFeature.stop f
  | CallUnprepare => NetworkFeature.unprepare f
  end.

Definition featureCalls (cs : list FeatureCall) : NetworkFeature.t :=
  fold_left featureCall cs NetworkFeature.create.

Definition timerAllocations (acts : list Action) : list unit :=
  flat_map (fun a => match a with NewSteadyTimer => [tt] | _ => [] end) acts.

(** The clock after an event, [c] being the clock before it. *)
Definition eventClock (ev : Event) (c : time_point) : time_point :=
  match ev with
  | SendCompleted _ _ _ now2 => now2
  | TimerExpired w => steady_clock_now w
  | TimerAborted => c
  end.

(** An event that respects the clock: the steady clock does not run
    backwards, and a wait that is pending does not expire before the time
    the timer was set to. *)
Definition onTime (st : RequestsState.t) (o : RequestsState.Outstanding)
    (c : time_point) (ev : Event) : Prop :=
  match ev with
  | SendCompleted _ _ now1 now2 => c <= now1 /\ now1 <= now2
  | TimerExpired w =>
    c <= steady_clock_now w /\
    (o = RequestsState.TimerWaiting ->
     forall d, RequestsState._timer st = Some d -> d <= steady_clock_now w)
  | TimerAborted => True
  end.

(** A sequence of events all of which respect the clock, from the state
    [st] with [o] outstanding at clock [c]. *)
Fixpoint timely `{Externals} (st : RequestsState.t)
    (o : RequestsState.Outstanding) (c : time_point) (evs : list Event)
  : Prop :=
  match evs with
  | [] => True
  | ev :: evs' =>
    onTime st o c ev /\
    match react st o ev with
    | Some s =>
      timely (RequestsState.state s) (RequestsState.outstanding s)
        (eventClock ev c) evs'
    | None => True
    end
  end.

(** ** Sample surroundings

    Concrete surroundings on which the properties are exercised: a
    coordinator that knows one data base server, with the pool prepared.
    The body decoder of the sample reads a one-byte body as the error
    number 1203 and any other body as no error number. *)
#[export] Instance sampleExternals : Externals := {|
  errorCodeFromBody := fun body => match body with [_] => 1203 | _ => 0 end;
  parseArangoPath := fun p => (EmptyString, p);
  encodeTimeStamp := fun _ => "stamp"%string;
  SystemDatabase := "_system"%string;
  HLCHeader := "x-arango-hlc"%string;
  ClusterCommSource := "x-arango-source"%string;
  TRI_ERROR_ARANGO_DATA_SOURCE_NOT_FOUND := 1203
|}.

Definition sampleFeature : NetworkFeature.t :=
  NetworkFeature.prepare 1%positive
    (NetworkFeature.validateOptions NetworkFeature.create).

Definition sampleWorld (now : time_point) : World :=
  {| steady_clock_now := now;
     TRI_HybridLogicalClock := 42;
     isStopping := false;
     serverState := mkServerState ROLE_COORDINATOR "CRDN-1";
     AGENT := None;
     resolveDestination := fun d =>
       if String.eqb d "server:PRMR-1" then Some "tcp://10.0.0.2:8529"%string
       else None;
     feature := sampleFeature |}.

(** The sample world after [beginShutdown()] has run (the stopping flag of
    the application server is left as it was). *)
Definition sampleWorldShutDown (now : time_point) : World :=
  {| steady_clock_now := now;
     TRI_HybridLogicalClock := 42;
     isStopping := false;
     serverState := mkServerState ROLE_COORDINATOR "CRDN-1";
     AGENT := None;
     resolveDestination := resolveDestination (sampleWorld now);
     feature := NetworkFeature.beginShutdown sampleFeature |}.

(** The sample world while the application server is stopping. *)
Definition sampleWorldStopping (now : time_point) : World :=
  {| steady_clock_now := now;
     TRI_HybridLogicalClock := 42;
     isStopping := true;
     serverState := mkServerState ROLE_COORDINATOR "CRDN-1";
     AGENT := None;
     resolveDestination := resolveDestination (sampleWorld now);
     feature := sampleFeature |}.

Definition samplePayload : list Byte.byte := [Byte.x7b; Byte.x7d].

(** A request to the known server, created at time 0 with a timeout of one
    second. *)
Definition sampleState (retryNotFound : bool) : RequestsState.t :=
  RequestsState.create 0 "server:PRMR-1"%string Post
    "/_api/document/c"%string samplePayload (seconds 1) [] retryNotFound.

(** The first attempt fails to connect; its completion is handled 300 ms
    after the request was created. *)
Definition connectionFailureAt300 : Event :=
  SendCompleted (errorToInt CouldNotConnect) None
    (milliseconds 300) (milliseconds 300).

(** The life of the sample request through the events [evs]: created at
    time 0, first attempted one microsecond later. *)
Definition sampleLife (evs : list Event) : Lifecycle :=
  lifecycle 0 (sampleWorld 1000) "server:PRMR-1"%string Post
    "/_api/document/c"%string samplePayload (seconds 1) [] false evs.

(** The attribute names and the reboot id as the server has them. *)
#[export] Instance sampleClusterTypes : ClusterTypesExternals := {|
  RebootId_initialized := fun v => negb (v =? 0);
  AnalyzersRevision_MIN := 0;
  StaticStrings_AnalyzersRevision := "revision"%string;
  StaticStrings_AnalyzersBuildingRevision := "buildingRevision"%string;
  StaticStrings_AttrCoordinator := "coordinator"%string;
  StaticStrings_AttrCoordinatorRebootId := "coordinatorRebootId"%string
|}.

Definition sampleRevision : AnalyzersRevision.t :=
  AnalyzersRevision.mk 7 8 "CRDN-1" 3.

Definition notFoundResponse : fuerte.Response :=
  fuerte.mkResponse 404 [Byte.x01].

Definition serverErrorResponse : fuerte.Response :=
  fuerte.mkResponse 500 [].

(** ** Option validation *)

(** C9: after [validateOptions] the number of IO threads is
    [min(1, max(8, n))] for the configured [n], and that is 1 whatever [n]
    was. *)
Theorem validateOptions_numIOThreads_constant (f : NetworkFeature.t) :
  NetworkFeature._numIOThreads (NetworkFeature.validateOptions f)
    = Z.min 1 (Z.max 8 (NetworkFeature._numIOThreads f))
  /\ NetworkFeature._numIOThreads (NetworkFeature.validateOptions f) = 1.
Proof.
  unfold NetworkFeature.validateOptions; cbn [NetworkFeature._numIOThreads].
  split; [reflexivity | lia].
Qed.

(** The other two numeric options are raised to their minimum and
    otherwise kept. *)
Lemma validateOptions_minima (f : NetworkFeature.t) :
  NetworkFeature._maxOpenConnections (NetworkFeature.validateOptions f)
    = Z.max 8 (NetworkFeature._maxOpenConnections f)
  /\ NetworkFeature._connectionTtlMilli (NetworkFeature.validateOptions f)
    = Z.max 10000 (NetworkFeature._connectionTtlMilli f).
Proof.
  unfold NetworkFeature.validateOptions; cbn.
  split.
  - destruct (Z.ltb_spec (NetworkFeature._maxOpenConnections f) 8); lia.
  - destruct (Z.ltb_spec (NetworkFeature._connectionTtlMilli f) 10000); lia.
Qed.

(** ** One attempt of a retrying request *)

Section Attempt.

Context `{Externals}.

Lemma sendRequest_late (w : World) (st : RequestsState.t) :
  ((steady_clock_now w >? RequestsState._endTime st) || isStopping w) = true ->
  RequestsState.sendRequest w st
    = Some (RequestsState.mkStep st RequestsState.Nothing
              [Callback (mkResponse (RequestsState._destination st)
                           (errorToInt Timeout) None)]).
Proof.
  intros Hlate. unfold RequestsState.sendRequest. rewrite Hlate. reflexivity.
Qed.

(** C6: when the clock is past [_endTime] at the top of an attempt, the
    attempt calls the callback with the timeout code and a null response,
    and does nothing else: it resolves no destination, leases no
    connection and sends nothing.  So does the first attempt, made by
    [sendRequestRetry], when the clock is past the end by then. *)
Theorem sendRequest_past_deadline (w : World) (st : RequestsState.t) :
  steady_clock_now w > RequestsState._endTime st ->
  RequestsState.sendRequest w st
    = Some (RequestsState.mkStep st RequestsState.Nothing
              [Callback (mkResponse (RequestsState._destination st)
                           (errorToInt Timeout) None)])
  /\ (forall s, RequestsState.sendRequest w st = Some s ->
        resolutions (RequestsState.calls s) = [] /\
        leases (RequestsState.calls s) = [] /\
        sends (RequestsState.calls s) = [] /\
        RequestsState.outstanding s = RequestsState.Nothing)
  /\ (forall now0 destination type path payload timeout headers retryNotFound,
        st = RequestsState.create now0 destination type path payload timeout
               headers retryNotFound ->
        sendRequestRetry now0 w destination type path payload timeout headers
          retryNotFound
        = Some (RequestsState.mkStep st RequestsState.Nothing
                  [Callback (mkResponse destination (errorToInt Timeout) None)])).
Proof.
  intros Hlate.
  assert (Heq : RequestsState.sendRequest w st
    = Some (RequestsState.mkStep st RequestsState.Nothing
              [Callback (mkResponse (RequestsState._destination st)
                           (errorToInt Timeout) None)])).
  { apply sendRequest_late. apply orb_true_iff. left. apply Z.gtb_lt. lia. }
  split; [exact Heq |]. split.
  - intros s Hs. rewrite Heq in Hs. injection Hs as <-. cbn. auto.
  - intros now0 destination type path payload timeout headers retryNotFound ->.
    unfold sendRequestRetry. rewrite Heq. reflexivity.
Qed.

(** The same holds while the application server is stopping. *)
Lemma sendRequest_while_stopping (w : World) (st : RequestsState.t) :
  isStopping w = true ->
  RequestsState.sendRequest w st
    = Some (RequestsState.mkStep st RequestsState.Nothing
              [Callback (mkResponse (RequestsState._destination st)
                           (errorToInt Timeout) None)]).
Proof.
  intros Hstop. apply sendRequest_late. rewrite Hstop. apply orb_true_r.
Qed.

End Attempt.

(** ** The completion of an attempt *)

Section Completion.

Context `{Externals}.

Variable st : RequestsState.t.

Let dest := RequestsState._destination st.

(** The two-sided test of the code is the clamp. *)
Lemma tryAgainAfter_clamp (d : duration) :
  (if d <? milliseconds 200 then milliseconds 200
   else if d >? seconds 10 then seconds 10 else d)
  = clamp (milliseconds 200) (seconds 10) d.
Proof.
  unfold clamp, milliseconds, seconds, ticks_per_milli.
  destruct (Z.ltb_spec d (200 * 1000000)).
  - lia.
  - destruct (d >? 10 * 1000 * 1000000) eqn:Hgt.
    + apply Z.gtb_lt in Hgt. lia.
    + assert (d <= 10 * 1000 * 1000000)
        by (destruct (Z.gtb_spec d (10 * 1000 * 1000000)); [discriminate | lia]).
      lia.
Qed.

Lemma clamp_bounds (lo hi x : Z) : lo <= hi -> lo <= clamp lo hi x <= hi.
Proof. unfold clamp. lia. Qed.

(** The backoff, read off the code: either the request ends with the
    error and response it was given, or the timer is set to the due time. *)
Lemma handleResponse_retry_cases (err : Error) (res : option fuerte.Response)
    (now1 now2 : time_point) :
  let dueTime :=
    now2 + clamp (milliseconds 200) (seconds 10)
             (now1 - RequestsState._startTime st) in
  (dueTime >= RequestsState._endTime st /\
   RequestsState.handleResponse_retry st err res now1 now2
     = RequestsState.mkStep st RequestsState.Nothing
         [Callback (mkResponse dest err res)])
  \/
  (dueTime < RequestsState._endTime st /\
   RequestsState.handleResponse_retry st err res now1 now2
     = RequestsState.mkStep (RequestsState.set_timer st dueTime)
         RequestsState.TimerWaiting
         ((match RequestsState._timer st with
           | None => [NewSteadyTimer]
           | Some _ => []
           end) ++ [ExpiresAt dueTime; AsyncWait])).
Proof.
  intros dueTime. unfold RequestsState.handleResponse_retry.
  rewrite tryAgainAfter_clamp. fold dueTime.
  destruct (Z.geb_spec dueTime (RequestsState._endTime st)) as [Hge | Hlt].
  - left. split; [lia | reflexivity].
  - right. split; [lia | reflexivity].
Qed.

(** A retryable completion reaches the backoff. *)
Lemma handleResponse_retryable (err : Error) (res : option fuerte.Response)
    (now1 now2 : time_point) :
  retryable st err res ->
  RequestsState.handleResponse st err res now1 now2
    = Some (RequestsState.handleResponse_retry st err res now1 now2).
Proof.
  intros [Hc | [Ht | [Hn [r [-> [H404 [Hflag Hcode]]]]]]];
    unfold RequestsState.handleResponse.
  - rewrite Hc. reflexivity.
  - rewrite Ht. reflexivity.
  - rewrite Hn, H404, Hflag, Hcode, !Z.eqb_refl. reflexivity.
Qed.

(** C4: a completion without transport error, by the status of the
    response [r].  A successful status ends the request with [NoError] and
    the response.  A not-found status on a request with the retry flag,
    whose body carries the error number of a missing data source, goes to
    the backoff.  Every other response ends the request at once, with the
    response, and no timer is set. *)
Theorem handleResponse_NoError (r : fuerte.Response) (now1 now2 : time_point) :
  (successful (statusCode r) ->
   RequestsState.handleResponse st (errorToInt NoError) (Some r) now1 now2
     = Some (RequestsState.mkStep st RequestsState.Nothing
               [Callback (mkResponse dest (errorToInt NoError) (Some r))]))
  /\
  (retryableNotFound st r ->
   RequestsState.handleResponse st (errorToInt NoError) (Some r) now1 now2
     = Some (RequestsState.handleResponse_retry st (errorToInt NoError)
               (Some r) now1 now2))
  /\
  (~ successful (statusCode r) -> ~ retryableNotFound st r ->
   exists s,
     RequestsState.handleResponse st (errorToInt NoError) (Some r) now1 now2
       = Some s /\
     RequestsState.state s = st /\
     RequestsState.outstanding s = RequestsState.Nothing /\
     map response (callbacks (RequestsState.calls s)) = [Some r] /\
     armings (RequestsState.calls s) = [] /\
     RequestsState.calls s
       = [Callback (mkResponse dest (errorToInt Canceled) (Some r))]).
Proof.
  unfold successful, retryableNotFound, StatusOK, StatusCreated,
    StatusAccepted, StatusNoContent, StatusNotFound.
  repeat split.
  - intros Hs. unfold RequestsState.handleResponse. cbn.
    destruct Hs as [-> | [-> | [-> | ->]]]; reflexivity.
  - intros (H404 & Hflag & Hcode). unfold RequestsState.handleResponse. cbn.
    rewrite H404, Hflag, Hcode, !Z.eqb_refl. reflexivity.
  - intros Hns Hnr. unfold RequestsState.handleResponse. cbn.
    unfold StatusOK, StatusCreated, StatusAccepted, StatusNoContent,
      StatusNotFound.
    destruct (Z.eqb_spec (statusCode r) 200); [tauto |].
    destruct (Z.eqb_spec (statusCode r) 201); [tauto |].
    destruct (Z.eqb_spec (statusCode r) 202); [tauto |].
    destruct (Z.eqb_spec (statusCode r) 204); [tauto |].
    cbn.
    destruct (Z.eqb_spec (statusCode r) 404) as [H404 | H404]; cbn.
    + destruct (RequestsState._retryOnCollNotFound st) eqn:Hflag; cbn.
      * destruct (Z.eqb_spec TRI_ERROR_ARANGO_DATA_SOURCE_NOT_FOUND
                    (errorCodeFromBody (slice r))) as [Hcode | Hcode].
        -- exfalso. apply Hnr. auto.
        -- eexists. repeat split.
      * eexists. repeat split.
    + eexists. repeat split.
Qed.

End Completion.

Section Backoff.

Context `{Externals}.

Variable st : RequestsState.t.

Let dest := RequestsState._destination st.

(** Every completion either goes to the backoff or ends the request with
    one call of the callback, which carries the response it was given. *)
Lemma handleResponse_cases (err : Error) (res : option fuerte.Response)
    (now1 now2 : time_point) (s : RequestsState.Step) :
  RequestsState.handleResponse st err res now1 now2 = Some s ->
  s = RequestsState.handleResponse_retry st err res now1 now2
  \/ exists e,
       s = RequestsState.mkStep st RequestsState.Nothing
             [Callback (mkResponse dest e res)].
Proof.
  unfold RequestsState.handleResponse.
  destruct (intToError err) eqn:Herr.
  - destruct res as [r |]; [| discriminate].
    destruct (_ || _ || _ || _).
    + intros [= <-]. right. eexists. reflexivity.
    + destruct (_ && _ && _).
      * intros [= <-]. left. reflexivity.
      * intros [= <-]. right. eexists. reflexivity.
  - intros [= <-]. left. reflexivity.
  - intros [= <-]. left. reflexivity.
  - intros [= <-]. right. eexists. reflexivity.
  - intros [= <-]. right. eexists. reflexivity.
Qed.

(** C3: for a retryable completion the backoff is the time since
    [_startTime] clamped to the interval from 200 ms to 10 s, and the due
    time is the clock plus the backoff.  When the due time is at or after
    [_endTime] the request ends with the error and the response of this
    attempt, unchanged.  Otherwise the timer is set to the due time and
    waited for, and when it expires [sendRequest] runs again from its
    top. *)
Theorem retryable_backoff (err : Error) (res : option fuerte.Response)
    (now1 now2 : time_point) :
  retryable st err res ->
  let backoff :=
    clamp (milliseconds 200) (seconds 10) (now1 - RequestsState._startTime st) in
  let dueTime := now2 + backoff in
  milliseconds 200 <= backoff <= seconds 10
  /\ (dueTime >= RequestsState._endTime st ->
      RequestsState.handleResponse st err res now1 now2
        = Some (RequestsState.mkStep st RequestsState.Nothing
                  [Callback (mkResponse dest err res)]))
  /\ (dueTime < RequestsState._endTime st ->
      RequestsState.handleResponse st err res now1 now2
        = Some (RequestsState.mkStep (RequestsState.set_timer st dueTime)
                  RequestsState.TimerWaiting
                  ((match RequestsState._timer st with
                    | None => [NewSteadyTimer]
                    | Some _ => []
                    end) ++ [ExpiresAt dueTime; AsyncWait]))
      /\ forall w,
           react (RequestsState.set_timer st dueTime)
             RequestsState.TimerWaiting (TimerExpired w)
           = RequestsState.sendRequest w (RequestsState.set_timer st dueTime)).
Proof.
  intros Hretry backoff dueTime.
  split.
  { apply clamp_bounds. unfold milliseconds, seconds, ticks_per_milli. lia. }
  rewrite (handleResponse_retryable st err res now1 now2 Hretry).
  destruct (handleResponse_retry_cases st err res now1 now2) as [[Hd ->] | [Hd ->]];
    fold backoff in Hd; fold dueTime in Hd; fold backoff; fold dueTime.
  - split; [reflexivity | lia].
  - split; [lia |]. intros _. split; reflexivity.
Qed.

(** Within the interval the backoff is the elapsed time itself, so it does
    not decrease from one completion to a later one. *)
Lemma backoff_monotone (elapsed1 elapsed2 : duration) :
  elapsed1 <= elapsed2 ->
  clamp (milliseconds 200) (seconds 10) elapsed1
    <= clamp (milliseconds 200) (seconds 10) elapsed2.
Proof. unfold clamp. lia. Qed.

(** C5, as the code has it: a completion sets the timer only to a due time
    strictly before [_endTime].  A retryable completion whose due time is
    at or after [_endTime] ends the request at once, and the callback is
    given the error code and the response of this attempt, unchanged:
    connection failure, timeout of the transport, or no error with the
    not-found response. *)
Theorem timer_armed_only_before_deadline (err : Error)
    (res : option fuerte.Response) (now1 now2 : time_point)
    (s : RequestsState.Step) :
  RequestsState.handleResponse st err res now1 now2 = Some s ->
  (forall d, In d (armings (RequestsState.calls s)) ->
     d < RequestsState._endTime st)
  /\ (retryable st err res ->
      let dueTime :=
        now2 + clamp (milliseconds 200) (seconds 10)
                 (now1 - RequestsState._startTime st) in
      (dueTime < RequestsState._endTime st /\
       armings (RequestsState.calls s) = [dueTime] /\
       callbacks (RequestsState.calls s) = [] /\
       RequestsState.outstanding s = RequestsState.TimerWaiting)
      \/
      (dueTime >= RequestsState._endTime st /\
       armings (RequestsState.calls s) = [] /\
       callbacks (RequestsState.calls s) = [mkResponse dest err res] /\
       RequestsState.outstanding s = RequestsState.Nothing)).
Proof.
  intros Hs. split.
  - intros d Hin.
    destruct (handleResponse_cases err res now1 now2 s Hs) as [-> | [e ->]].
    + destruct (handleResponse_retry_cases st err res now1 now2)
        as [[Hd Heq] | [Hd Heq]]; rewrite Heq in Hin.
      * cbn in Hin. contradiction.
      * destruct (RequestsState._timer st); cbn in Hin;
          destruct Hin as [<- | []]; exact Hd.
    + cbn in Hin. contradiction.
  - intros Hretry dueTime.
    rewrite (handleResponse_retryable st err res now1 now2 Hretry) in Hs.
    injection Hs as <-.
    destruct (handleResponse_retry_cases st err res now1 now2)
      as [[Hd ->] | [Hd ->]]; fold dueTime in Hd.
    + right. repeat split; assumption.
    + left. destruct (RequestsState._timer st); repeat split; assumption.
Qed.

End Backoff.

(** ** The whole life of a request *)

Section WholeLife.

Context `{Externals}.

(** An attempt leaves the state as it is; it ends the request with one
    call of the callback and a null response, or it leases a connection
    and sends the request built from the members. *)
Lemma sendRequest_cases (w : World) (st : RequestsState.t)
    (s : RequestsState.Step) :
  RequestsState.sendRequest w st = Some s ->
  RequestsState.state s = st /\
  ((RequestsState.outstanding s = RequestsState.Nothing /\
    sends (RequestsState.calls s) = [] /\
    leases (RequestsState.calls s) = [] /\
    armings (RequestsState.calls s) = [] /\
    exists e,
      callbacks (RequestsState.calls s)
        = [mkResponse (RequestsState._destination st) e None])
   \/
   (RequestsState.outstanding s = RequestsState.SendInFlight /\
    callbacks (RequestsState.calls s) = [] /\
    armings (RequestsState.calls s) = [] /\
    exists pool endpoint,
      NetworkFeature.pool (feature w) = Some pool /\
      resolveDestination w (RequestsState._destination st) = Some endpoint /\
      RequestsState.calls s
        = [Resolve (RequestsState._destination st);
           LeaseConnection pool endpoint;
           Send (prepareRequest w (RequestsState._type st)
                   (RequestsState._path st) (RequestsState._payload st)
                   (milliseconds
                      (duration_cast_milliseconds
                         (RequestsState._endTime st - RequestsState._startTime st)))
                   (RequestsState._headers st))])).
Proof.
  unfold RequestsState.sendRequest.
  destruct (_ || _).
  { intros [= <-]. cbn. split; [reflexivity |]. left. eauto 10. }
  destruct (resolveDestination w _) as [endpoint |] eqn:Hres.
  2: { intros [= <-]. cbn. split; [reflexivity |]. left. eauto 10. }
  destruct (NetworkFeature.pool _) as [pool |] eqn:Hpool.
  2: { intros [= <-]. cbn. split; [reflexivity |]. left. eauto 10. }
  destruct (_ >? 0); [| discriminate].
  intros [= <-]. cbn. split; [reflexivity |]. right. eauto 10.
Qed.

Lemma sameRequest_refl (a : RequestsState.t) : sameRequest a a.
Proof. unfold sameRequest. tauto. Qed.

Lemma sameRequest_trans (a b c : RequestsState.t) :
  sameRequest a b -> sameRequest b c -> sameRequest a c.
Proof. unfold sameRequest. intuition congruence. Qed.

Lemma sameRequest_set_timer (a : RequestsState.t) (d : time_point) :
  sameRequest a (RequestsState.set_timer a d).
Proof. unfold sameRequest. cbn. tauto. Qed.

(** What one handler does, whatever the event: it keeps the members, it
    calls the callback at most once and then leaves nothing outstanding,
    and what it sends carries the stored payload and the whole timeout. *)
Lemma react_step (st : RequestsState.t) (o : RequestsState.Outstanding)
    (ev : Event) (s : RequestsState.Step) :
  react st o ev = Some s ->
  sameRequest st (RequestsState.state s) /\
  (callbacks (RequestsState.calls s) = [] \/
   (exists r, callbacks (RequestsState.calls s) = [r]) /\
   RequestsState.outstanding s = RequestsState.Nothing) /\
  Forall (fun req =>
            payload req = RequestsState._payload st /\
            timeout req
              = duration_cast_milliseconds
                  (milliseconds
                     (duration_cast_milliseconds
                        (RequestsState._endTime st - RequestsState._startTime st))))
    (sends (RequestsState.calls s)).
Proof.
  destruct o, ev; cbn [react]; try (intros [= <-]; cbn;
    repeat split; auto using sameRequest_refl).
  - intros Hs.
    destruct (handleResponse_cases st err res now1 now2 s Hs) as [-> | [e ->]].
    + destruct (handleResponse_retry_cases st err res now1 now2)
        as [[_ ->] | [_ ->]]; cbn.
      * repeat split; eauto using sameRequest_refl.
      * destruct (RequestsState._timer st); cbn;
          repeat split; auto using sameRequest_set_timer.
    + cbn. repeat split; eauto using sameRequest_refl.
  - intros Hs.
    destruct (sendRequest_cases w st s Hs)
      as [-> [(Ho & Hsend & _ & _ & e & Hcb) | (Ho & Hcb & _ & p & ep & _ & _ & Hcalls)]].
    + rewrite Hsend, Hcb. repeat split; eauto using sameRequest_refl.
    + rewrite Hcb, Hcalls. cbn. repeat split; auto using sameRequest_refl.
Qed.

(** A handler that runs while nothing is outstanding does not exist: no
    event changes a request that is over. *)
Lemma run_Nothing (st : RequestsState.t) (evs : list Event) :
  run st RequestsState.Nothing evs
    = mkLifecycle st RequestsState.Nothing [] false.
Proof.
  induction evs as [| ev evs IH]; [reflexivity |].
  cbn [run]. replace (react st RequestsState.Nothing ev)
    with (Some (RequestsState.mkStep st RequestsState.Nothing []))
    by (destruct ev; reflexivity).
  cbn. rewrite IH. reflexivity.
Qed.

Lemma callbacks_app (a b : list Action) :
  callbacks (a ++ b) = callbacks a ++ callbacks b.
Proof. apply flat_map_app. Qed.

Lemma sends_app (a b : list Action) : sends (a ++ b) = sends a ++ sends b.
Proof. apply flat_map_app. Qed.

(** At most one call of the callback, over every sequence of events. *)
Lemma run_callback_at_most_once (evs : list Event) :
  forall st o, (List.length (callbacks (trace (run st o evs))) <= 1)%nat.
Proof.
  induction evs as [| ev evs IH]; intros st o; [cbn; lia |].
  cbn [run]. destruct (react st o ev) as [s |] eqn:Hs; [| cbn; lia].
  cbn [trace]. rewrite callbacks_app, length_app.
  destruct (react_step st o ev s Hs) as (_ & [Hcb | [[r Hcb] Ho]] & _).
  - rewrite Hcb. cbn. apply IH.
  - rewrite Hcb, Ho, run_Nothing. cbn. lia.
Qed.

End WholeLife.

Section WholeLifeInvariants.

Context `{Externals}.

Lemma duration_cast_milliseconds_milliseconds (n : Z) :
  duration_cast_milliseconds (milliseconds n) = n.
Proof.
  unfold duration_cast_milliseconds, milliseconds, ticks_per_milli.
  apply Z.quot_mul. lia.
Qed.

(** The members stay what they were, through every sequence of events. *)
Lemma run_sameRequest (evs : list Event) :
  forall st o, sameRequest st (final (run st o evs)).
Proof.
  induction evs as [| ev evs IH]; intros st o; [apply sameRequest_refl |].
  cbn [run]. destruct (react st o ev) as [s |] eqn:Hs;
    [| apply sameRequest_refl].
  cbn [final]. destruct (react_step st o ev s Hs) as (Hsame & _).
  eapply sameRequest_trans; [exact Hsame | apply IH].
Qed.

(** Every request handed to a connection carries the stored payload, and
    as its timeout the whole span from [_startTime] to [_endTime]. *)
Lemma run_sends (evs : list Event) :
  forall st o,
    Forall (fun req =>
              payload req = RequestsState._payload st /\
              timeout req
                = duration_cast_milliseconds
                    (RequestsState._endTime st - RequestsState._startTime st))
      (sends (trace (run st o evs))).
Proof.
  induction evs as [| ev evs IH]; intros st o; [constructor |].
  cbn [run]. destruct (react st o ev) as [s |] eqn:Hs; [| constructor].
  cbn [trace]. rewrite sends_app. apply Forall_app.
  destruct (react_step st o ev s Hs) as (Hsame & _ & Hsends).
  split.
  - eapply Forall_impl; [| exact Hsends].
    intros req [Hp Ht]. rewrite duration_cast_milliseconds_milliseconds in Ht.
    auto.
  - specialize (IH (RequestsState.state s) (RequestsState.outstanding s)).
    eapply Forall_impl; [| exact IH].
    destruct Hsame as (_ & _ & _ & Hp & _ & Hs0 & He & _).
    intros req [Hq Ht]. rewrite Hp, Hs0, He. auto.
Qed.

(** A handler that does not call the callback leaves an operation
    outstanding, the aborted wait apart. *)
Lemma react_progress (st : RequestsState.t) (o : RequestsState.Outstanding)
    (ev : Event) (s : RequestsState.Step) :
  react st o ev = Some s ->
  o <> RequestsState.Nothing ->
  ev <> TimerAborted ->
  callbacks (RequestsState.calls s) = [] ->
  RequestsState.outstanding s <> RequestsState.Nothing.
Proof.
  intros Hs Ho Hev Hcb.
  destruct o, ev; cbn [react] in Hs; try congruence;
    try (injection Hs as <-; cbn; congruence).
  - destruct (handleResponse_cases st err res now1 now2 s Hs) as [-> | [e ->]].
    + destruct (handleResponse_retry_cases st err res now1 now2)
        as [[_ Heq] | [_ Heq]]; rewrite Heq in *; cbn in *; congruence.
    + cbn in Hcb. discriminate.
  - destruct (sendRequest_cases w st s Hs)
      as [_ [(_ & _ & _ & _ & e & Hcb') | (Ho' & _)]]; congruence.
Qed.

(** Exactly one call of the callback, once nothing is outstanding any
    more, when no wait was aborted and no assertion failed. *)
Lemma run_callback_exactly_once (evs : list Event) :
  forall st o,
    o <> RequestsState.Nothing ->
    ~ In TimerAborted evs ->
    waiting (run st o evs) = RequestsState.Nothing ->
    assertionFailed (run st o evs) = false ->
    List.length (callbacks (trace (run st o evs))) = 1%nat.
Proof.
  induction evs as [| ev evs IH]; intros st o Ho Hab Hw Hf.
  - cbn in Hw. congruence.
  - cbn [run] in *. destruct (react st o ev) as [s |] eqn:Hs;
      [| cbn in Hf; discriminate].
    cbn [trace waiting assertionFailed] in *.
    rewrite callbacks_app, length_app.
    destruct (react_step st o ev s Hs) as (_ & [Hcb | [[r Hcb] Hn]] & _).
    + rewrite Hcb. cbn. apply IH; auto.
      * eapply react_progress; eauto. intros ->. apply Hab. left. reflexivity.
      * intros Hin. apply Hab. right. exact Hin.
    + rewrite Hcb, Hn, run_Nothing. reflexivity.
Qed.

Variables (now0 : time_point) (w : World) (destination : DestinationId)
  (type : RestVerb) (path : string) (payload : list Byte.byte)
  (timeout : duration) (headers : Headers) (retryNotFound : bool).

Let life := lifecycle now0 w destination type path payload timeout headers
              retryNotFound.

(** X22: over every sequence of events the callback is called at most
    once, so the promise is never given a second value. *)
Lemma callback_at_most_once (evs : list Event) :
  (List.length (callbacks (trace (life evs))) <= 1)%nat
  /\ fulfil None (callbacks (trace (life evs))) <> None.
Proof.
  assert (Hle : (List.length (callbacks (trace (life evs))) <= 1)%nat).
  { unfold life, lifecycle.
    destruct (sendRequestRetry _ _ _ _ _ _ _ _ _) as [s |] eqn:Hs; [| cbn; lia].
    cbn [trace]. rewrite callbacks_app, length_app.
    unfold sendRequestRetry in Hs.
    destruct (sendRequest_cases _ _ _ Hs)
      as [_ [(Ho & _ & _ & _ & e & Hcb) | (_ & Hcb & _)]].
    - rewrite Hcb, Ho, run_Nothing. cbn. lia.
    - rewrite Hcb. cbn. apply run_callback_at_most_once. }
  split; [exact Hle |].
  destruct (callbacks (trace (life evs))) as [| r [| r' rs]]; cbn in *;
    [discriminate | discriminate | lia].
Qed.

(** X23: the callback is called exactly once, and the promise holds the
    value it was called with, when the request has come to rest (nothing
    is outstanding) without an aborted wait and without a failed
    assertion. *)
Lemma callback_exactly_once (evs : list Event) :
  ~ In TimerAborted evs ->
  waiting (life evs) = RequestsState.Nothing ->
  assertionFailed (life evs) = false ->
  exists r,
    callbacks (trace (life evs)) = [r] /\
    fulfil None (callbacks (trace (life evs))) = Some (Some r).
Proof.
  intros Hab Hw Hf.
  assert (Hlen : List.length (callbacks (trace (life evs))) = 1%nat).
  { unfold life, lifecycle in *.
    destruct (sendRequestRetry _ _ _ _ _ _ _ _ _) as [s |] eqn:Hs;
      [| cbn in Hf; discriminate].
    cbn [trace waiting assertionFailed] in *.
    rewrite callbacks_app, length_app.
    unfold sendRequestRetry in Hs.
    destruct (sendRequest_cases _ _ _ Hs)
      as [_ [(Ho & _ & _ & _ & e & Hcb) | (Ho & Hcb & _)]].
    - rewrite Hcb, Ho, run_Nothing. reflexivity.
    - rewrite Hcb. cbn. apply run_callback_exactly_once; auto.
      rewrite Ho. discriminate. }
  destruct (callbacks (trace (life evs))) as [| r [| r' rs]];
    cbn in Hlen; try discriminate.
  exists r. split; reflexivity.
Qed.

(** C8: every request handed to a connection during the life of a
    retrying request carries the payload [sendRequestRetry] was given, and
    the stored payload is that payload after every sequence of events. *)
Theorem payload_identical_on_every_attempt (evs : list Event) :
  Forall (fun req => fuerte.payload req = payload) (sends (trace (life evs)))
  /\ RequestsState._payload (final (life evs)) = payload.
Proof.
  unfold life, lifecycle.
  destruct (sendRequestRetry _ _ _ _ _ _ _ _ _) as [s |] eqn:Hs.
  2: { cbn. split; [constructor | reflexivity]. }
  unfold sendRequestRetry in Hs.
  cbn [trace final]. rewrite sends_app.
  pose proof (sendRequest_cases _ _ _ Hs) as [Hst Hcases].
  rewrite Hst. split.
  - apply Forall_app. split.
    + destruct Hcases as [(_ & Hsend & _) | (_ & _ & _ & p & ep & _ & _ & Hcalls)].
      * rewrite Hsend. constructor.
      * rewrite Hcalls. cbn. constructor; [reflexivity | constructor].
    + eapply Forall_impl; [| apply run_sends]. cbn. intros req [Hp _]. exact Hp.
  - pose proof (run_sameRequest evs
                  (RequestsState.create now0 destination type path payload
                     timeout headers retryNotFound)
                  (RequestsState.outstanding s)) as (_ & _ & _ & Hp & _).
    cbn in Hp. symmetry. exact Hp.
Qed.

(** The timeout of every request handed to a connection is the timeout
    [sendRequestRetry] was given, in milliseconds, whenever the attempt is
    made. *)
Lemma whole_timeout_on_every_attempt (evs : list Event) :
  Forall (fun req => fuerte.timeout req = duration_cast_milliseconds timeout)
    (sends (trace (life evs))).
Proof.
  unfold life, lifecycle.
  destruct (sendRequestRetry _ _ _ _ _ _ _ _ _) as [s |] eqn:Hs;
    [| constructor].
  unfold sendRequestRetry in Hs.
  cbn [trace]. rewrite sends_app.
  pose proof (sendRequest_cases _ _ _ Hs) as [Hst Hcases].
  rewrite Hst.
  assert (Hspan : RequestsState._endTime
                    (RequestsState.create now0 destination type path payload
                       timeout headers retryNotFound)
                  - RequestsState._startTime
                      (RequestsState.create now0 destination type path payload
                         timeout headers retryNotFound) = timeout)
    by (cbn; lia).
  apply Forall_app. split.
  - destruct Hcases as [(_ & Hsend & _) | (_ & _ & _ & p & ep & _ & _ & Hcalls)].
    + rewrite Hsend. constructor.
    + rewrite Hcalls. cbn. constructor; [| constructor]. cbn.
      rewrite duration_cast_milliseconds_milliseconds.
      f_equal. lia.
  - eapply Forall_impl; [| apply run_sends].
    intros req [_ Ht]. rewrite Ht, Hspan. reflexivity.
Qed.

End WholeLifeInvariants.

(** ** The pool pointer and shutdown *)

Section Shutdown.

Context `{Externals}.

Lemma beginShutdown_keeps_invariant (f : NetworkFeature.t) :
  publishedPoolAlive f ->
  Forall publishedPoolAlive (NetworkFeature.beginShutdown_states f).
Proof.
  intros Hf. unfold NetworkFeature.beginShutdown_states.
  repeat constructor; try exact Hf;
    intros a Ha; cbn in Ha; discriminate.
Qed.

(** C7: an attempt that reaches the pool check and finds the pointer null
    calls the callback with the canceled code and leases nothing, and no
    dispatch of either entry point leases or sends while the pointer is
    null.  [beginShutdown] stores the null pointer in its first statement
    and leaves the pool untouched until the second, so the pointer is null
    in every state from the first statement on, and a pointer that is
    published never refers to a pool that was shut down. *)
Theorem no_lease_once_pool_is_withdrawn (w : World) (st : RequestsState.t) :
  NetworkFeature.pool (feature w) = None ->
  (forall endpoint,
     steady_clock_now w <= RequestsState._endTime st ->
     isStopping w = false ->
     resolveDestination w (RequestsState._destination st) = Some endpoint ->
     RequestsState.sendRequest w st
       = Some (RequestsState.mkStep st RequestsState.Nothing
                 [Resolve (RequestsState._destination st);
                  Callback (mkResponse (RequestsState._destination st)
                              (errorToInt Canceled) None)]))
  /\ (forall s, RequestsState.sendRequest w st = Some s ->
        leases (RequestsState.calls s) = [] /\
        sends (RequestsState.calls s) = [] /\
        RequestsState.outstanding s = RequestsState.Nothing)
  /\ (forall destination type path payload timeout headers,
        sendRequest w destination type path payload timeout headers
          = Some {| calls := [];
                    ready := Some (mkResponse destination
                                     (errorToInt Canceled) None) |})
  /\ (forall f,
        NetworkFeature.pool (NetworkFeature.beginShutdown_store f) = None /\
        NetworkFeature._pool (NetworkFeature.beginShutdown_store f)
          = NetworkFeature._pool f /\
        NetworkFeature.pool (NetworkFeature.beginShutdown f) = None /\
        NetworkFeature.beginShutdown f
          = NetworkFeature.beginShutdown_pool
              (NetworkFeature.beginShutdown_store f) /\
        (publishedPoolAlive f ->
         Forall publishedPoolAlive (NetworkFeature.beginShutdown_states f))).
Proof.
  intros Hnull.
  assert (Hquiet : forall s, RequestsState.sendRequest w st = Some s ->
            leases (RequestsState.calls s) = [] /\
            sends (RequestsState.calls s) = [] /\
            RequestsState.outstanding s = RequestsState.Nothing).
  { intros s Hs.
    destruct (sendRequest_cases w st s Hs)
      as [_ [(Ho & Hsd & Hl & _) | (_ & _ & _ & p & _ & Hp & _)]];
      [auto | congruence]. }
  repeat split; try (apply Hquiet; assumption).
  - intros endpoint Hnow Hstop Hres. unfold RequestsState.sendRequest.
    replace (steady_clock_now w >? RequestsState._endTime st) with false
      by (symmetry; destruct (Z.gtb_spec (steady_clock_now w)
                                (RequestsState._endTime st)); [lia | reflexivity]).
    rewrite Hstop, Hres, Hnull. reflexivity.
  - unfold sendRequest. rewrite Hnull. reflexivity.
  - apply beginShutdown_keeps_invariant.
Qed.

(** The states of a feature between construction and shutdown keep the
    invariant. *)
Lemma prepare_publishes_live_pool (a : NetworkFeature.Addr)
    (f : NetworkFeature.t) :
  publishedPoolAlive (NetworkFeature.prepare a f).
Proof.
  intros a' Ha. cbn in Ha. injection Ha as <-.
  eexists. cbn. repeat split.
Qed.

End Shutdown.

(** ** The single attempt *)

Section SingleAttempt.

Context `{Externals}.

(** C10: when the pool is there and the destination resolves, the single
    attempt leases one connection and sends one request, and the value its
    callback sets on the promise is the destination with the error code
    and the response of the transport, as they are.  A completed exchange
    that answers with status 500 arrives with [NoError] and that response,
    not with the canceled or the timeout code. *)
Theorem sendRequest_passes_transport_result (w : World)
    (destination : DestinationId) (type : RestVerb) (path : string)
    (payload : list Byte.byte) (timeout : duration) (headers : Headers)
    (pool : NetworkFeature.Addr) (endpoint : EndpointSpec) :
  NetworkFeature.pool (feature w) = Some pool ->
  resolveDestination w destination = Some endpoint ->
  endpoint <> EmptyString ->
  sendRequest w destination type path payload timeout headers
    = Some {| calls := [Resolve destination;
                        LeaseConnection pool endpoint;
                        Send (prepareRequest w type path payload timeout headers)];
              ready := None |}
  /\ (forall err res,
        fulfil None [sendRequest_callback destination err res]
          = Some (Some (mkResponse destination err res)))
  /\ (forall r,
        statusCode r = 500 ->
        let v := sendRequest_callback destination (errorToInt NoError) (Some r) in
        error v = errorToInt NoError /\
        response v = Some r /\
        error v <> errorToInt Canceled /\
        error v <> errorToInt Timeout).
Proof.
  intros Hpool Hres Hne. repeat split; try discriminate.
  unfold sendRequest. rewrite Hpool, Hres.
  destruct (String.eqb_spec endpoint EmptyString); [contradiction | reflexivity].
Qed.

End SingleAttempt.

(** ** The properties on the sample request *)

(** C1: the callback is not called when the wait for the retry is aborted.
    The first attempt of the sample request fails to connect, the timer is
    set, and its wait handler is given an error code: the handler returns
    without calling [sendRequest], nothing is outstanding any more, the
    callback was never called and the promise holds no value, whatever
    events follow. *)
Theorem aborted_wait_never_calls_back (more : list Event) :
  callbacks (trace (sampleLife (connectionFailureAt300 :: TimerAborted :: more)))
    = []
  /\ fulfil None
       (callbacks
          (trace (sampleLife (connectionFailureAt300 :: TimerAborted :: more))))
     = Some None
  /\ waiting (sampleLife (connectionFailureAt300 :: TimerAborted :: more))
     = RequestsState.Nothing
  /\ assertionFailed (sampleLife (connectionFailureAt300 :: TimerAborted :: more))
     = false
  /\ armings (trace (sampleLife (connectionFailureAt300 :: TimerAborted :: more)))
     = [milliseconds 600].
Proof.
  assert (Hlife :
    sampleLife (connectionFailureAt300 :: TimerAborted :: more)
    = mkLifecycle
        (RequestsState.set_timer (sampleState false) (milliseconds 600))
        RequestsState.Nothing
        [Resolve "server:PRMR-1"%string;
         LeaseConnection 1%positive "tcp://10.0.0.2:8529"%string;
         Send (prepareRequest (sampleWorld 1000) Post "/_api/document/c"%string
                 samplePayload (seconds 1) []);
         NewSteadyTimer; ExpiresAt (milliseconds 600); AsyncWait]
        false).
  { unfold sampleLife, lifecycle.
    change (sendRequestRetry 0 (sampleWorld 1000) "server:PRMR-1"%string Post
              "/_api/document/c"%string samplePayload (seconds 1) [] false)
      with (Some (RequestsState.mkStep (sampleState false)
                    RequestsState.SendInFlight
                    [Resolve "server:PRMR-1"%string;
                     LeaseConnection 1%positive "tcp://10.0.0.2:8529"%string;
                     Send (prepareRequest (sampleWorld 1000) Post
                             "/_api/document/c"%string samplePayload
                             (seconds 1) [])])).
    cbv beta iota.
    cbn [RequestsState.state RequestsState.outstanding RequestsState.calls run].
    change (react (sampleState false) RequestsState.SendInFlight
              connectionFailureAt300)
      with (Some (RequestsState.mkStep
                    (RequestsState.set_timer (sampleState false) (milliseconds 600))
                    RequestsState.TimerWaiting
                    [NewSteadyTimer; ExpiresAt (milliseconds 600); AsyncWait])).
    cbv beta iota.
    cbn [RequestsState.state RequestsState.outstanding RequestsState.calls
         react].
    cbv beta iota.
    cbn [RequestsState.state RequestsState.outstanding RequestsState.calls].
    rewrite run_Nothing. reflexivity. }
  rewrite Hlife. repeat split.
Qed.

(** C2: the timeout of the second attempt is not the time that is left.
    The sample request has one second.  Its first attempt fails to connect
    and is handled after 300 ms; the timer expires at 600 ms and the
    second attempt is made then, with 400 ms left: both requests are sent
    with a timeout of 1000 ms. *)
Theorem second_attempt_sends_whole_timeout :
  map fuerte.timeout
    (sends (trace (sampleLife
                     [connectionFailureAt300;
                      TimerExpired (sampleWorld (milliseconds 600))])))
    = [1000; 1000]
  /\ duration_cast_milliseconds
       (RequestsState._endTime
          (final (sampleLife
                    [connectionFailureAt300;
                     TimerExpired (sampleWorld (milliseconds 600))]))
        - steady_clock_now (sampleWorld (milliseconds 600)))
     = 400
  /\ waiting (sampleLife
                [connectionFailureAt300;
                 TimerExpired (sampleWorld (milliseconds 600))])
     = RequestsState.SendInFlight.
Proof. vm_compute. repeat split. Qed.

(** C5, as stated, fails: the sample request, whose attempt fails to
    connect 900 ms into its one second, has its due time past the end, sets
    no timer, and ends with the connection failure, not with the timeout
    code. *)
Lemma expired_backoff_reports_connection_failure :
  milliseconds 900
    + clamp (milliseconds 200) (seconds 10)
        (milliseconds 900 - RequestsState._startTime (sampleState false))
    >= RequestsState._endTime (sampleState false)
  /\ RequestsState.handleResponse (sampleState false)
       (errorToInt CouldNotConnect) None (milliseconds 900) (milliseconds 900)
     = Some (RequestsState.mkStep (sampleState false) RequestsState.Nothing
               [Callback (mkResponse "server:PRMR-1"%string
                            (errorToInt CouldNotConnect) None)])
  /\ errorToInt CouldNotConnect <> errorToInt Timeout.
Proof.
  split; [vm_compute; discriminate |].
  split; [vm_compute; reflexivity | discriminate].
Qed.

(** Two scenarios, run.  A not-found answer with the error number of a
    missing data source is retried once when the request asks for it, and
    the successful second answer is the outcome. *)
Example not_found_then_ok :
  callbacks
    (trace
       (lifecycle 0 (sampleWorld 1000) "server:PRMR-1"%string Post
          "/_api/document/c"%string samplePayload (seconds 1) [] true
          [SendCompleted (errorToInt NoError) (Some notFoundResponse)
             (milliseconds 300) (milliseconds 300);
           TimerExpired (sampleWorld (milliseconds 600));
           SendCompleted (errorToInt NoError) (Some (fuerte.mkResponse 200 []))
             (milliseconds 700) (milliseconds 700)]))
  = [mkResponse "server:PRMR-1"%string (errorToInt NoError)
       (Some (fuerte.mkResponse 200 []))].
Proof. vm_compute. reflexivity. Qed.

(** When every attempt fails to connect, the request ends as soon as the
    next due time would reach the end, with the connection failure of the
    last attempt. *)
Example connection_failures_until_the_end :
  callbacks
    (trace
       (sampleLife
          [connectionFailureAt300;
           TimerExpired (sampleWorld (milliseconds 600));
           SendCompleted (errorToInt CouldNotConnect) None
             (milliseconds 650) (milliseconds 650)]))
  = [mkResponse "server:PRMR-1"%string (errorToInt CouldNotConnect) None].
Proof. vm_compute. reflexivity. Qed.

(** The properties applied to the sample request. *)

(** An attempt of the sample request two seconds after its creation. *)
Lemma sendRequest_past_deadline_witness :
  steady_clock_now (sampleWorld (seconds 2))
    > RequestsState._endTime (sampleState false)
  /\ RequestsState.sendRequest (sampleWorld (seconds 2)) (sampleState false)
     = Some (RequestsState.mkStep (sampleState false) RequestsState.Nothing
               [Callback (mkResponse "server:PRMR-1"%string
                            (errorToInt Timeout) None)]).
Proof.
  assert (Hlate : steady_clock_now (sampleWorld (seconds 2))
                  > RequestsState._endTime (sampleState false))
    by (vm_compute; reflexivity).
  split; [exact Hlate |].
  exact (proj1 (sendRequest_past_deadline (sampleWorld (seconds 2))
                  (sampleState false) Hlate)).
Defined.

(** A connection failure 300 ms into the sample request sets the timer to
    600 ms. *)
Lemma retryable_backoff_witness :
  retryable (sampleState false) (errorToInt CouldNotConnect) None
  /\ RequestsState.handleResponse (sampleState false)
       (errorToInt CouldNotConnect) None (milliseconds 300) (milliseconds 300)
     = Some (RequestsState.mkStep
               (RequestsState.set_timer (sampleState false) (milliseconds 600))
               RequestsState.TimerWaiting
               [NewSteadyTimer; ExpiresAt (milliseconds 600); AsyncWait]).
Proof.
  assert (Hretry : retryable (sampleState false) (errorToInt CouldNotConnect) None)
    by (left; reflexivity).
  split; [exact Hretry |].
  destruct (retryable_backoff (sampleState false) (errorToInt CouldNotConnect)
              None (milliseconds 300) (milliseconds 300) Hretry)
    as (_ & _ & Hbefore).
  destruct Hbefore as [Heq _]; [vm_compute; reflexivity | exact Heq].
Defined.

(** The sample request with the retry flag: the not-found answer goes to
    the backoff, a created answer ends it with success. *)
Lemma handleResponse_NoError_witness :
  retryableNotFound (sampleState true) notFoundResponse
  /\ RequestsState.handleResponse (sampleState true) (errorToInt NoError)
       (Some notFoundResponse) (milliseconds 300) (milliseconds 300)
     = Some (RequestsState.mkStep
               (RequestsState.set_timer (sampleState true) (milliseconds 600))
               RequestsState.TimerWaiting
               [NewSteadyTimer; ExpiresAt (milliseconds 600); AsyncWait])
  /\ successful (statusCode (fuerte.mkResponse 201 []))
  /\ RequestsState.handleResponse (sampleState true) (errorToInt NoError)
       (Some (fuerte.mkResponse 201 [])) (milliseconds 300) (milliseconds 300)
     = Some (RequestsState.mkStep (sampleState true) RequestsState.Nothing
               [Callback (mkResponse "server:PRMR-1"%string (errorToInt NoError)
                            (Some (fuerte.mkResponse 201 [])))]).
Proof.
  assert (Hnf : retryableNotFound (sampleState true) notFoundResponse)
    by (repeat split).
  assert (Hok : successful (statusCode (fuerte.mkResponse 201 [])))
    by (right; left; reflexivity).
  split; [exact Hnf |].
  split.
  - exact (proj1 (proj2 (handleResponse_NoError (sampleState true)
                           notFoundResponse (milliseconds 300)
                           (milliseconds 300))) Hnf).
  - split; [exact Hok |].
    exact (proj1 (handleResponse_NoError (sampleState true)
                    (fuerte.mkResponse 201 []) (milliseconds 300)
                    (milliseconds 300)) Hok).
Defined.

(** The not-found answer 900 ms into the sample request: no timer, and the
    callback is given [NoError] with the response. *)
Lemma timer_armed_only_before_deadline_witness :
  RequestsState.handleResponse (sampleState true) (errorToInt NoError)
    (Some notFoundResponse) (milliseconds 900) (milliseconds 900)
  = Some (RequestsState.mkStep (sampleState true) RequestsState.Nothing
            [Callback (mkResponse "server:PRMR-1"%string (errorToInt NoError)
                         (Some notFoundResponse))])
  /\ retryable (sampleState true) (errorToInt NoError) (Some notFoundResponse)
  /\ forall d,
       In d (armings
               [Callback (mkResponse "server:PRMR-1"%string (errorToInt NoError)
                            (Some notFoundResponse))]) ->
       d < RequestsState._endTime (sampleState true).
Proof.
  assert (Hs : RequestsState.handleResponse (sampleState true)
                 (errorToInt NoError) (Some notFoundResponse)
                 (milliseconds 900) (milliseconds 900)
               = Some (RequestsState.mkStep (sampleState true)
                         RequestsState.Nothing
                         [Callback (mkResponse "server:PRMR-1"%string
                                      (errorToInt NoError)
                                      (Some notFoundResponse))]))
    by (vm_compute; reflexivity).
  split; [exact Hs |].
  split.
  - right. right. split; [reflexivity |].
    exists notFoundResponse. repeat split.
  - exact (proj1 (timer_armed_only_before_deadline (sampleState true)
                    (errorToInt NoError) (Some notFoundResponse)
                    (milliseconds 900) (milliseconds 900) _ Hs)).
Defined.

(** An attempt of the sample request after [beginShutdown()]. *)
Lemma no_lease_once_pool_is_withdrawn_witness :
  NetworkFeature.pool (feature (sampleWorldShutDown 1000)) = None
  /\ RequestsState.sendRequest (sampleWorldShutDown 1000) (sampleState false)
     = Some (RequestsState.mkStep (sampleState false) RequestsState.Nothing
               [Resolve "server:PRMR-1"%string;
                Callback (mkResponse "server:PRMR-1"%string
                            (errorToInt Canceled) None)]).
Proof.
  assert (Hnull : NetworkFeature.pool (feature (sampleWorldShutDown 1000)) = None)
    by reflexivity.
  split; [exact Hnull |].
  apply (proj1 (no_lease_once_pool_is_withdrawn (sampleWorldShutDown 1000)
                  (sampleState false) Hnull) "tcp://10.0.0.2:8529"%string).
  - vm_compute. discriminate.
  - reflexivity.
  - reflexivity.
Defined.

(** The single attempt to the known server, answered with status 500. *)
Lemma sendRequest_passes_transport_result_witness :
  NetworkFeature.pool (feature (sampleWorld 1000)) = Some 1%positive
  /\ resolveDestination (sampleWorld 1000) "server:PRMR-1"%string
     = Some "tcp://10.0.0.2:8529"%string
  /\ fulfil None
       [sendRequest_callback "server:PRMR-1"%string (errorToInt NoError)
          (Some serverErrorResponse)]
     = Some (Some (mkResponse "server:PRMR-1"%string (errorToInt NoError)
                     (Some serverErrorResponse))).
Proof.
  assert (Hpool : NetworkFeature.pool (feature (sampleWorld 1000))
                  = Some 1%positive) by reflexivity.
  assert (Hres : resolveDestination (sampleWorld 1000) "server:PRMR-1"%string
                 = Some "tcp://10.0.0.2:8529"%string) by reflexivity.
  assert (Hne : "tcp://10.0.0.2:8529"%string <> EmptyString) by discriminate.
  split; [exact Hpool |].
  split; [exact Hres |].
  exact (proj1 (proj2 (sendRequest_passes_transport_result (sampleWorld 1000)
                         "server:PRMR-1"%string Post "/_api/document/c"%string
                         samplePayload (seconds 1) [] 1%positive
                         "tcp://10.0.0.2:8529"%string Hpool Hres Hne))
           (errorToInt NoError) (Some serverErrorResponse)).
Defined.

(** ** More on the network feature *)

(** X1: validating the options twice is validating them once.  After
    validation there are at least 8 open connections and at least 10000 ms
    of time to live; the host verification flag, the pool and the
    published pointer are what they were. *)
Theorem validateOptions_idempotent (f : NetworkFeature.t) :
  NetworkFeature.validateOptions (NetworkFeature.validateOptions f)
    = NetworkFeature.validateOptions f
  /\ 8 <= NetworkFeature._maxOpenConnections (NetworkFeature.validateOptions f)
  /\ 10000 <= NetworkFeature._connectionTtlMilli (NetworkFeature.validateOptions f)
  /\ NetworkFeature._verifyHosts (NetworkFeature.validateOptions f)
     = NetworkFeature._verifyHosts f
  /\ NetworkFeature._pool (NetworkFeature.validateOptions f)
     = NetworkFeature._pool f
  /\ NetworkFeature.pool (NetworkFeature.validateOptions f)
     = NetworkFeature.pool f.
Proof.
  destruct (validateOptions_minima f) as [Hmax Httl].
  split.
  - destruct f as [n m t v p q].
    unfold NetworkFeature.validateOptions.
    cbn [NetworkFeature._numIOThreads NetworkFeature._maxOpenConnections
         NetworkFeature._connectionTtlMilli NetworkFeature._verifyHosts
         NetworkFeature._pool NetworkFeature._poolPtr].
    f_equal.
    + lia.
    + destruct (Z.ltb_spec m 8); [reflexivity |].
      destruct (Z.ltb_spec m 8); [lia | reflexivity].
    + destruct (Z.ltb_spec t 10000); [reflexivity |].
      destruct (Z.ltb_spec t 10000); [lia | reflexivity].
  - rewrite Hmax, Httl. repeat split; lia.
Qed.

(** X2: whatever was configured, the pool that [prepare] builds after
    [validateOptions] has one IO thread, the configured number of open
    connections but at least 8, the configured time to live but at least
    10000 ms; it is not shut down and the published pointer refers to it. *)
Theorem prepared_pool_config (a : NetworkFeature.Addr) (f : NetworkFeature.t) :
  exists p,
    NetworkFeature._pool
      (NetworkFeature.prepare a (NetworkFeature.validateOptions f)) = Some p
    /\ NetworkFeature.pool
         (NetworkFeature.prepare a (NetworkFeature.validateOptions f))
       = Some (NetworkFeature.addr p)
    /\ NetworkFeature.addr p = a
    /\ NetworkFeature.isShutdown p = false
    /\ NetworkFeature.numIOThreads (NetworkFeature.config p) = 1
    /\ NetworkFeature.maxOpenConnections (NetworkFeature.config p)
       = Z.max 8 (NetworkFeature._maxOpenConnections f)
    /\ NetworkFeature.connectionTtlMilli (NetworkFeature.config p)
       = Z.max 10000 (NetworkFeature._connectionTtlMilli f)
    /\ NetworkFeature.verifyHosts (NetworkFeature.config p)
       = NetworkFeature._verifyHosts f.
Proof.
  destruct (validateOptions_minima f) as [Hmax Httl].
  eexists. split; [reflexivity |].
  cbn [NetworkFeature.prepare NetworkFeature.pool NetworkFeature._poolPtr
       NetworkFeature.addr NetworkFeature.isShutdown NetworkFeature.config
       NetworkFeature.numIOThreads NetworkFeature.maxOpenConnections
       NetworkFeature.connectionTtlMilli NetworkFeature.verifyHosts].
  rewrite Hmax, Httl.
  repeat split.
  cbn. lia.
Qed.

Lemma featureCall_keeps_invariant (f : NetworkFeature.t) (c : FeatureCall) :
  publishedPoolAlive f -> publishedPoolAlive (featureCall f c).
Proof.
  intros Hf. destruct c; cbn [featureCall].
  - exact Hf.
  - intros a' Ha. cbn in Ha. injection Ha as <-.
    eexists. cbn. repeat split.
  - intros a' Ha. cbn in Ha. discriminate.
  - exact Hf.
  - exact Hf.
Qed.

Lemma fold_featureCall_keeps_invariant (cs : list FeatureCall) :
  forall f, publishedPoolAlive f ->
    publishedPoolAlive (fold_left featureCall cs f).
Proof.
  induction cs as [| c cs IH]; intros f Hf; [exact Hf |].
  cbn [fold_left]. apply IH. apply featureCall_keeps_invariant. exact Hf.
Qed.

Lemma fold_featureCall_no_prepare (cs : list FeatureCall) :
  forall f,
    (forall a, ~ In (CallPrepare a) cs) ->
    NetworkFeature.pool f = None ->
    NetworkFeature.pool (fold_left featureCall cs f) = None.
Proof.
  induction cs as [| c cs IH]; intros f Hno Hf; [exact Hf |].
  cbn [fold_left]. apply IH.
  - intros a Hin. apply (Hno a). right. exact Hin.
  - destruct c; cbn [featureCall]; try exact Hf; try reflexivity.
    exfalso. apply (Hno a). left. reflexivity.
Qed.

(** X3: after every sequence of calls on a new feature, a pointer that is
    published refers to the pool the feature owns, and that pool has not
    been shut down. *)
Theorem published_pool_alive_always (cs : list FeatureCall) :
  publishedPoolAlive (featureCalls cs).
Proof.
  unfold featureCalls. apply fold_featureCall_keeps_invariant.
  intros a Ha. cbn in Ha. discriminate.
Qed.

(** X4: once [beginShutdown] has run, the pointer stays null through every
    later call until the feature is prepared again; and a feature that was
    never prepared publishes nothing. *)
Theorem pool_stays_withdrawn (before after : list FeatureCall) :
  (forall a, ~ In (CallPrepare a) after) ->
  NetworkFeature.pool (featureCalls (before ++ CallBeginShutdown :: after)) = None
  /\ NetworkFeature.pool (featureCalls after) = None.
Proof.
  intros Hno. split.
  - unfold featureCalls. rewrite fold_left_app. cbn [fold_left].
    apply fold_featureCall_no_prepare; [exact Hno | reflexivity].
  - unfold featureCalls.
    apply fold_featureCall_no_prepare; [exact Hno | reflexivity].
Qed.


(** A sequence that prepares, shuts down and validates again. *)
Lemma pool_stays_withdrawn_witness :
  NetworkFeature.pool
    (featureCalls ([CallValidateOptions; CallPrepare 1%positive]
                     ++ CallBeginShutdown :: [CallStop; CallUnprepare]))
  = None.
Proof.
  apply (pool_stays_withdrawn [CallValidateOptions; CallPrepare 1%positive]
           [CallStop; CallUnprepare]).
  intros a [Hin | [Hin | []]]; discriminate.
Defined.

(** ** More on building and dispatching a request *)

Section Building.

Context `{Externals}.

(** X6: the headers of the caller are passed on first and in their order,
    the time stamp of the hybrid logical clock follows, and the header that
    names the sender comes last: the id of the server on a coordinator or a
    data base server, the word AGENT- and the id of the agent on an agent
    that has an agent instance, and no such header on an agent without
    instance or on a single server. *)
Theorem prepareRequest_headers (w : World) (type : RestVerb) (path : string)
    (payload : list Byte.byte) (timeout : duration) (headers : Headers) :
  let stamp := (HLCHeader, encodeTimeStamp (TRI_HybridLogicalClock w)) in
  let sent := meta (prepareRequest w type path payload timeout headers) in
  (role (serverState w) = ROLE_COORDINATOR \/
   role (serverState w) = ROLE_DBSERVER ->
   sent = headers ++ [stamp; (ClusterCommSource, getId (serverState w))])
  /\ (forall id, role (serverState w) = ROLE_AGENT -> AGENT w = Some id ->
      sent = headers ++ [stamp; (ClusterCommSource, String.append "AGENT-" id)])
  /\ (role (serverState w) = ROLE_AGENT -> AGENT w = None ->
      sent = headers ++ [stamp])
  /\ (role (serverState w) = ROLE_SINGLE -> sent = headers ++ [stamp])
  /\ firstn (List.length headers) sent = headers
  /\ nth_error sent (List.length headers) = Some stamp
  /\ (List.length sent <= List.length headers + 2)%nat.
Proof.
  intros stamp sent. subst sent stamp.
  unfold prepareRequest, isCoordinator, isDBServer, isAgent.
  cbn [meta].
  repeat split.
  - intros [-> | ->]; cbn; rewrite <- app_assoc; reflexivity.
  - intros id -> ->. cbn. rewrite <- app_assoc. reflexivity.
  - intros -> ->. reflexivity.
  - intros ->. reflexivity.
  - destruct (role (serverState w)); cbn; try destruct (AGENT w);
      rewrite <- ?app_assoc; rewrite firstn_app, Nat.sub_diag, firstn_all;
      cbn; apply app_nil_r.
  - destruct (role (serverState w)); cbn; try destruct (AGENT w);
      rewrite <- ?app_assoc; rewrite nth_error_app2, Nat.sub_diag by lia;
      reflexivity.
  - destruct (role (serverState w)); cbn; try destruct (AGENT w);
      rewrite ?length_app; cbn; lia.
Qed.


(** X8: the data base of the request is the one the path names, and the
    system data base when the path names none; it is never empty. *)
Theorem prepareRequest_database (w : World) (type : RestVerb) (path : string)
    (payload : list Byte.byte) (timeout : duration) (headers : Headers) :
  SystemDatabase <> EmptyString ->
  let req := prepareRequest w type path payload timeout headers in
  database req <> EmptyString
  /\ (fst (parseArangoPath path) = EmptyString -> database req = SystemDatabase)
  /\ (fst (parseArangoPath path) <> EmptyString ->
      database req = fst (parseArangoPath path))
  /\ fuerte.path req = snd (parseArangoPath path).
Proof.
  intros Hsys req. subst req. unfold prepareRequest.
  cbn [database fuerte.path].
  destruct (String.eqb_spec (fst (parseArangoPath path)) EmptyString) as [He | Hne].
  - repeat split; auto. intros Hne. contradiction.
  - repeat split; auto. intros He. contradiction.
Qed.

(** X9: the single attempt has two ways out.  Either its future is ready
    at once with the canceled code and a null response, and then it has
    leased no connection and sent nothing (it has not even asked for the
    destination when the pool pointer was null); or the future waits for
    the callback, and then it has resolved the destination, leased one
    connection and sent the one request [prepareRequest] builds. *)
Theorem sendRequest_sends_once_or_is_canceled (w : World)
    (destination : DestinationId) (type : RestVerb) (path : string)
    (payload : list Byte.byte) (timeout : duration) (headers : Headers)
    (d : Dispatched) :
  sendRequest w destination type path payload timeout headers = Some d ->
  (ready d = Some (mkResponse destination (errorToInt Canceled) None)
   /\ leases (calls d) = []
   /\ sends (calls d) = []
   /\ (NetworkFeature.pool (feature w) = None -> calls d = [])
   /\ (NetworkFeature.pool (feature w) = None \/
       resolveDestination w destination = None))
  \/
  (ready d = None
   /\ resolutions (calls d) = [destination]
   /\ sends (calls d)
      = [prepareRequest w type path payload timeout headers]
   /\ exists pool endpoint,
        NetworkFeature.pool (feature w) = Some pool
        /\ resolveDestination w destination = Some endpoint
        /\ leases (calls d) = [(pool, endpoint)]).
Proof.
  unfold sendRequest.
  destruct (NetworkFeature.pool (feature w)) as [pool |] eqn:Hpool.
  - destruct (resolveDestination w destination) as [endpoint |] eqn:Hres.
    + destruct (String.eqb endpoint EmptyString); [discriminate |].
      intros [= <-]. right. cbn. repeat split. eauto.
    + intros [= <-]. left. cbn. repeat split; auto. discriminate.
  - intros [= <-]. left. cbn. repeat split; auto.
Qed.

(** X10: a transport error other than connection failure and timeout ends
    the request at once: the callback is given that error code and the
    response as they came, nothing is retried and no timer is set. *)
Theorem handleResponse_other_error (st : RequestsState.t) (err : Error)
    (res : option fuerte.Response) (now1 now2 : time_point) :
  intToError err <> NoError ->
  intToError err <> CouldNotConnect ->
  intToError err <> Timeout ->
  RequestsState.handleResponse st err res now1 now2
    = Some (RequestsState.mkStep st RequestsState.Nothing
              [Callback (mkResponse (RequestsState._destination st) err res)]).
Proof.
  intros Hn Hc Ht. unfold RequestsState.handleResponse.
  destruct (intToError err); try contradiction; reflexivity.
Qed.

End Building.

(** ** More on the whole life of a request *)

Section LifeOutcomes.

Context `{Externals}.

(** What a call made during the life of the request [st0] may be. *)
Let fair (st0 : RequestsState.t) (a : Action) : Prop :=
  match a with
  | Callback r =>
    destination r = RequestsState._destination st0 /\
    (error r = errorToInt NoError ->
     exists resp,
       response r = Some resp /\
       (successful (statusCode resp) \/ retryableNotFound st0 resp))
  | ExpiresAt d => d < RequestsState._endTime st0
  | Resolve d => d = RequestsState._destination st0
  | _ => True
  end.

Lemma successful_spec (s : StatusCode) :
  (s =? StatusOK) || (s =? StatusCreated) || (s =? StatusAccepted)
  || (s =? StatusNoContent) = true ->
  successful s.
Proof.
  unfold successful. intros Hs.
  repeat (apply orb_true_iff in Hs; destruct Hs as [Hs | Hs]);
    apply Z.eqb_eq in Hs; auto.
Qed.

Lemma react_fair (st0 st : RequestsState.t) (o : RequestsState.Outstanding)
    (ev : Event) (s : RequestsState.Step) :
  sameRequest st0 st ->
  react st o ev = Some s ->
  Forall (fair st0) (RequestsState.calls s).
Proof.
  intros (Hd & _ & _ & _ & _ & Hstart & Hend & Hflag) Hs.
  destruct o, ev; cbn [react] in Hs;
    try (injection Hs as <-; constructor).
  - (* the completion of a send *)
    assert (Hretry :
      (error (mkResponse (RequestsState._destination st) err res)
         = errorToInt NoError ->
       exists resp, res = Some resp /\
         (successful (statusCode resp) \/ retryableNotFound st0 resp)) ->
      Forall (fair st0)
        (RequestsState.calls
           (RequestsState.handleResponse_retry st err res now1 now2))).
    { intros Hno.
      destruct (handleResponse_retry_cases st err res now1 now2)
        as [[_ ->] | [Hdue ->]]; cbn [RequestsState.calls].
      - constructor; [| constructor]. cbn. split; [congruence | exact Hno].
      - apply Forall_app. split.
        + destruct (RequestsState._timer st); repeat constructor.
        + constructor; [red; rewrite Hend; exact Hdue | repeat constructor]. }
    unfold RequestsState.handleResponse in Hs.
    destruct (intToError err) eqn:Herr; unfold intToError in Herr; subst err.
    + destruct res as [r |]; [| discriminate].
      destruct (_ || _ || _ || _) eqn:Hok.
      * injection Hs as <-. constructor; [| constructor]. cbn.
        split; [congruence |]. intros _. exists r.
        split; [reflexivity |]. left. apply successful_spec. exact Hok.
      * destruct (_ && _ && _) eqn:Hnf.
        -- injection Hs as <-. apply Hretry. intros _. exists r.
           split; [reflexivity |]. right.
           apply andb_true_iff in Hnf. destruct Hnf as [Hnf Hcode].
           apply andb_true_iff in Hnf. destruct Hnf as [H404 Hfl].
           apply Z.eqb_eq in H404. apply Z.eqb_eq in Hcode.
           unfold retryableNotFound. rewrite Hflag. auto.
        -- injection Hs as <-. constructor; [| constructor]. cbn.
           split; [congruence | discriminate].
    + injection Hs as <-. apply Hretry. cbn. discriminate.
    + injection Hs as <-. apply Hretry. cbn. discriminate.
    + injection Hs as <-. constructor; [| constructor]. cbn.
      split; [congruence | discriminate].
    + injection Hs as <-. constructor; [| constructor]. cbn.
      split; [congruence | discriminate].
  - (* the timer expired: another attempt *)
    unfold RequestsState.sendRequest in Hs.
    destruct (_ || _).
    { injection Hs as <-. repeat constructor; cbn; [congruence | discriminate]. }
    destruct (resolveDestination w _).
    2: { injection Hs as <-.
         repeat constructor; cbn; [congruence | congruence | discriminate]. }
    destruct (NetworkFeature.pool _).
    2: { injection Hs as <-.
         repeat constructor; cbn; [congruence | congruence | discriminate]. }
    destruct (_ >? 0); [| discriminate].
    injection Hs as <-. repeat constructor. cbn. congruence.
Qed.

Lemma run_fair (st0 : RequestsState.t) (evs : list Event) :
  forall st o, sameRequest st0 st -> Forall (fair st0) (trace (run st o evs)).
Proof.
  induction evs as [| ev evs IH]; intros st o Hsame; [constructor |].
  cbn [run]. destruct (react st o ev) as [s |] eqn:Hs; [| constructor].
  cbn [trace]. apply Forall_app. split.
  - eapply react_fair; eauto.
  - apply IH. eapply sameRequest_trans; [exact Hsame |].
    apply (react_step st o ev s Hs).
Qed.

Variables (now0 : time_point) (w : World) (destination : DestinationId)
  (type : RestVerb) (path : string) (payload : list Byte.byte)
  (timeout : duration) (headers : Headers) (retryNotFound : bool).

Let st0 := RequestsState.create now0 destination type path payload timeout
             headers retryNotFound.

Let life := lifecycle now0 w destination type path payload timeout headers
              retryNotFound.

Lemma lifecycle_fair (evs : list Event) : Forall (fair st0) (trace (life evs)).
Proof.
  unfold life, lifecycle, sendRequestRetry. fold st0.
  destruct (RequestsState.sendRequest w st0) as [s |] eqn:Hs; [| constructor].
  cbn [trace]. apply Forall_app. split.
  - apply (react_fair st0 st0 RequestsState.TimerWaiting (TimerExpired w) s);
      [apply sameRequest_refl | exact Hs].
  - apply run_fair. destruct (sendRequest_cases w st0 s Hs) as [-> _].
    apply sameRequest_refl.
Qed.

(** X11: every call of the callback, whatever the events, names the
    destination the request was made for; and when it carries [NoError] it
    carries a response, whose status is a successful one or is the
    not-found of a missing data source on a request that asked for the
    retry. *)
Theorem callback_outcomes (evs : list Event) :
  Forall
    (fun r =>
       network.destination r = destination /\
       (error r = errorToInt NoError ->
        exists resp,
          response r = Some resp /\
          (successful (statusCode resp) \/
           (statusCode resp = StatusNotFound /\
            retryNotFound = true /\
            errorCodeFromBody (slice resp)
              = TRI_ERROR_ARANGO_DATA_SOURCE_NOT_FOUND))))
    (callbacks (trace (life evs))).
Proof.
  unfold callbacks. apply Forall_flat_map.
  eapply Forall_impl; [| apply lifecycle_fair].
  intros [] Hfair; cbn in *; constructor; [exact Hfair | constructor].
Qed.

(** X12: every due time a timer is set to during the life of a request
    lies strictly before the end [now0 + timeout], and every destination
    that is resolved is the destination of the request. *)
Theorem timers_before_deadline (evs : list Event) :
  Forall (fun d => d < now0 + timeout) (armings (trace (life evs)))
  /\ Forall (fun d => d = destination) (resolutions (trace (life evs))).
Proof.
  split.
  - unfold armings. apply Forall_flat_map.
    eapply Forall_impl; [| apply lifecycle_fair].
    intros [] Hfair; cbn in *; constructor; [exact Hfair | constructor].
  - unfold resolutions. apply Forall_flat_map.
    eapply Forall_impl; [| apply lifecycle_fair].
    intros [] Hfair; cbn in *; constructor; [exact Hfair | constructor].
Qed.

(** X13: the request keeps what it was created with.  After every
    sequence of events the start is the clock read at creation, the end is
    that clock plus the timeout, and destination, verb, path, headers and
    the retry flag are the ones [sendRequestRetry] was given. *)
Theorem deadline_never_moves (evs : list Event) :
  RequestsState._startTime (final (life evs)) = now0
  /\ RequestsState._endTime (final (life evs)) = now0 + timeout
  /\ RequestsState._destination (final (life evs)) = destination
  /\ RequestsState._type (final (life evs)) = type
  /\ RequestsState._path (final (life evs)) = path
  /\ RequestsState._headers (final (life evs)) = headers
  /\ RequestsState._retryOnCollNotFound (final (life evs)) = retryNotFound.
Proof.
  assert (Hsame : sameRequest st0 (final (life evs))).
  { unfold life, lifecycle, sendRequestRetry. fold st0.
    destruct (RequestsState.sendRequest w st0) as [s |] eqn:Hs;
      [| apply sameRequest_refl].
    cbn [final]. destruct (sendRequest_cases w st0 s Hs) as [-> _].
    apply run_sameRequest. }
  destruct Hsame as (Hd & Hty & Hp & _ & Hh & Hs & He & Hf).
  cbn in *. repeat split; congruence.
Qed.

(** X14: a destination that does not resolve ends the request in its first
    attempt: the callback is called with the canceled code and a null
    response, no connection is leased, nothing is sent, no timer is set,
    and no later event changes that. *)
Theorem unresolvable_destination_is_canceled (evs : list Event) :
  steady_clock_now w <= now0 + timeout ->
  isStopping w = false ->
  resolveDestination w destination = None ->
  life evs
    = mkLifecycle st0 RequestsState.Nothing
        [Resolve destination;
         Callback (mkResponse destination (errorToInt Canceled) None)]
        false.
Proof.
  intros Hnow Hstop Hres.
  unfold life, lifecycle, sendRequestRetry. fold st0.
  unfold RequestsState.sendRequest.
  replace (steady_clock_now w >? RequestsState._endTime st0) with false
    by (symmetry; cbn; destruct (Z.gtb_spec (steady_clock_now w) (now0 + timeout));
        [lia | reflexivity]).
  rewrite Hstop. cbn [orb RequestsState._destination st0 RequestsState.create].
  rewrite Hres.
  cbn [RequestsState.state RequestsState.outstanding RequestsState.calls].
  rewrite run_Nothing. reflexivity.
Qed.

End LifeOutcomes.

Section LifeCounts.

Context `{Externals}.

Lemma leases_app (a b : list Action) : leases (a ++ b) = leases a ++ leases b.
Proof. apply flat_map_app. Qed.

Lemma resolutions_app (a b : list Action) :
  resolutions (a ++ b) = resolutions a ++ resolutions b.
Proof. apply flat_map_app. Qed.

Lemma timerAllocations_app (a b : list Action) :
  timerAllocations (a ++ b) = timerAllocations a ++ timerAllocations b.
Proof. apply flat_map_app. Qed.

(** One handler: what it leases it sends on, it resolves before it sends,
    and it sends at most once. *)
Lemma react_counts (st : RequestsState.t) (o : RequestsState.Outstanding)
    (ev : Event) (s : RequestsState.Step) :
  react st o ev = Some s ->
  List.length (leases (RequestsState.calls s))
    = List.length (sends (RequestsState.calls s))
  /\ (List.length (sends (RequestsState.calls s))
      <= List.length (resolutions (RequestsState.calls s)))%nat
  /\ (sends (RequestsState.calls s) = [] \/
      RequestsState.outstanding s = RequestsState.SendInFlight /\
      RequestsState.state s = st /\
      o = RequestsState.TimerWaiting /\
      (exists w, ev = TimerExpired w) /\
      List.length (sends (RequestsState.calls s)) = 1%nat).
Proof.
  destruct o, ev; cbn [react]; try (intros [= <-]; cbn; auto).
  - intros Hs.
    destruct (handleResponse_cases st err res now1 now2 s Hs) as [-> | [e ->]].
    + destruct (handleResponse_retry_cases st err res now1 now2)
        as [[_ ->] | [_ ->]]; cbn; auto.
      destruct (RequestsState._timer st); cbn; auto.
    + cbn. auto.
  - intros Hs.
    destruct (sendRequest_cases w st s Hs)
      as [Hst [(_ & Hsd & Hl & _) | (Ho & _ & _ & p & ep & _ & _ & Hcalls)]].
    + rewrite Hsd, Hl. cbn. repeat split; auto. lia.
    + rewrite Hcalls. cbn. repeat split; auto. right. eauto 10.
Qed.

(** One handler and the timer: a timer that is there is not allocated
    again, and stays. *)
Lemma react_timer (st : RequestsState.t) (o : RequestsState.Outstanding)
    (ev : Event) (s : RequestsState.Step) :
  react st o ev = Some s ->
  (timerAllocations (RequestsState.calls s) = [] /\
   (RequestsState._timer st <> None ->
    RequestsState._timer (RequestsState.state s) <> None))
  \/ (timerAllocations (RequestsState.calls s) = [tt] /\
      RequestsState._timer st = None /\
      RequestsState._timer (RequestsState.state s) <> None).
Proof.
  destruct o, ev; cbn [react]; try (intros [= <-]; cbn; auto).
  - intros Hs.
    destruct (handleResponse_cases st err res now1 now2 s Hs) as [-> | [e ->]].
    + destruct (handleResponse_retry_cases st err res now1 now2)
        as [[_ ->] | [_ ->]]; cbn; auto.
      destruct (RequestsState._timer st); cbn.
      * left. split; [reflexivity | discriminate].
      * right. repeat split. discriminate.
    + cbn. auto.
  - intros Hs.
    destruct (sendRequest_cases w st s Hs)
      as [-> [(_ & _ & _ & _ & e & _) | (_ & _ & _ & p & ep & _ & _ & Hcalls)]].
    + left. split; [| auto].
      unfold RequestsState.sendRequest in Hs.
      destruct (_ || _); [injection Hs as <-; reflexivity |].
      destruct (resolveDestination w _); [| injection Hs as <-; reflexivity].
      destruct (NetworkFeature.pool _); [| injection Hs as <-; reflexivity].
      destruct (_ >? 0); [injection Hs as <-; reflexivity | discriminate].
    + rewrite Hcalls. cbn. auto.
Qed.

Lemma run_timer_kept (evs : list Event) :
  forall st o,
    RequestsState._timer st <> None ->
    timerAllocations (trace (run st o evs)) = [].
Proof.
  induction evs as [| ev evs IH]; intros st o Ht; [reflexivity |].
  cbn [run]. destruct (react st o ev) as [s |] eqn:Hs; [| reflexivity].
  cbn [trace]. rewrite timerAllocations_app.
  destruct (react_timer st o ev s Hs) as [[Hnone Hkeep] | (_ & Hno & _)];
    [| contradiction].
  rewrite Hnone. cbn. apply IH. auto.
Qed.

Lemma run_timer_once (evs : list Event) :
  forall st o, (List.length (timerAllocations (trace (run st o evs))) <= 1)%nat.
Proof.
  induction evs as [| ev evs IH]; intros st o; [cbn; lia |].
  cbn [run]. destruct (react st o ev) as [s |] eqn:Hs; [| cbn; lia].
  cbn [trace]. rewrite timerAllocations_app, length_app.
  destruct (react_timer st o ev s Hs) as [[Hnone _] | (Hone & _ & Hthere)].
  - rewrite Hnone. cbn. apply IH.
  - rewrite Hone, run_timer_kept by exact Hthere. cbn. lia.
Qed.

Lemma run_counts (evs : list Event) :
  forall st o,
    List.length (leases (trace (run st o evs)))
      = List.length (sends (trace (run st o evs)))
    /\ (List.length (sends (trace (run st o evs)))
        <= List.length (resolutions (trace (run st o evs))))%nat.
Proof.
  induction evs as [| ev evs IH]; intros st o; [cbn; lia |].
  cbn [run]. destruct (react st o ev) as [s |] eqn:Hs; [| cbn; lia].
  cbn [trace]. rewrite leases_app, sends_app, resolutions_app, !length_app.
  destruct (react_counts st o ev s Hs) as (Hl & Hr & _).
  specialize (IH (RequestsState.state s) (RequestsState.outstanding s)). lia.
Qed.

(** The number of requests sent from a state on, under events that
    respect the clock: retries are at least 200 ms apart and every due time
    lies before the end. *)
Lemma run_attempts_bounded (evs : list Event) :
  forall st o c,
    timely st o c evs ->
    let n := Z.of_nat (List.length (sends (trace (run st o evs)))) in
    match o with
    | RequestsState.Nothing => n = 0
    | RequestsState.SendInFlight =>
      n = 0 \/ milliseconds 200 * n < RequestsState._endTime st - c
    | RequestsState.TimerWaiting =>
      forall d, RequestsState._timer st = Some d ->
        n <= 1 \/ milliseconds 200 * (n - 1) < RequestsState._endTime st - d
    end.
Proof.
  induction evs as [| ev evs IH]; intros st o c Htimely.
  { destruct o; cbn; auto. intros d _. left. lia. }
  destruct o.
  - rewrite run_Nothing. reflexivity.
  - (* a send is in flight *)
    cbn [timely] in Htimely. destruct Htimely as [Hon Hrest].
    cbn [run]. destruct (react st RequestsState.SendInFlight ev) as [s |] eqn:Hs;
      [| cbn; auto].
    cbn [trace]. cbv zeta. rewrite sends_app, length_app, Nat2Z.inj_add.
    destruct ev as [err res now1 now2 | w | ]; cbn [react] in Hs.
    + cbn [onTime eventClock] in *.
      destruct (handleResponse_cases st err res now1 now2 s Hs) as [-> | [e ->]].
      * pose proof (clamp_bounds (milliseconds 200) (seconds 10)
                      (now1 - RequestsState._startTime st)) as Hclamp.
        destruct (handleResponse_retry_cases st err res now1 now2)
          as [[_ Heq] | [Hdue Heq]]; rewrite Heq in *;
          cbn [RequestsState.state RequestsState.outstanding
               RequestsState.calls] in *.
        -- rewrite run_Nothing. cbn. auto.
        -- specialize (IH _ _ _ Hrest). cbv zeta in IH.
           specialize (IH _ eq_refl).
           replace (sends
                      ((match RequestsState._timer st with
                        | Some _ => []
                        | None => [NewSteadyTimer]
                        end) ++ [ExpiresAt
                                   (now2 + clamp (milliseconds 200) (seconds 10)
                                             (now1 - RequestsState._startTime st));
                                 AsyncWait]))
             with (@nil Request)
             by (destruct (RequestsState._timer st); reflexivity).
           cbn [List.length Z.of_nat Z.add].
           cbn [RequestsState.set_timer RequestsState._endTime] in IH.
           unfold milliseconds, seconds, ticks_per_milli in *. lia.
      * cbn [RequestsState.state RequestsState.outstanding RequestsState.calls].
        rewrite run_Nothing. cbn. auto.
    + injection Hs as <-.
      cbn [RequestsState.state RequestsState.outstanding RequestsState.calls
           onTime eventClock] in *.
      specialize (IH _ _ _ Hrest). cbv zeta in IH. cbn [sends flat_map app List.length Z.of_nat Z.add].
      destruct IH as [IH | IH]; [left; exact IH | right; lia].
    + injection Hs as <-.
      cbn [RequestsState.state RequestsState.outstanding RequestsState.calls
           onTime eventClock] in *.
      specialize (IH _ _ _ Hrest). cbv zeta in IH. cbn [sends flat_map app List.length Z.of_nat Z.add].
      exact IH.
  - (* the timer is waited for *)
    cbn [timely] in Htimely. destruct Htimely as [Hon Hrest].
    intros n d Hd. subst n.
    cbn [run]. destruct (react st RequestsState.TimerWaiting ev) as [s |] eqn:Hs;
      [| cbn; left; lia].
    cbn [trace]. rewrite sends_app, length_app, Nat2Z.inj_add.
    destruct ev as [err res now1 now2 | w | ]; cbn [react] in Hs.
    + injection Hs as <-.
      cbn [RequestsState.state RequestsState.outstanding RequestsState.calls] in *.
      specialize (IH _ _ _ Hrest). cbv zeta in IH. specialize (IH d Hd).
      cbn [sends flat_map app List.length Z.of_nat Z.add]. exact IH.
    + cbn [onTime eventClock] in *. destruct Hon as [Hc Hfire].
      specialize (Hfire eq_refl d Hd).
      destruct (sendRequest_cases w st s Hs)
        as [Hst [(Ho & Hsd & _) | (Ho & _ & _ & p & ep & _ & _ & Hcalls)]].
      * rewrite Hsd, Ho, run_Nothing. cbn. left. lia.
      * rewrite Hcalls, Ho, Hst in *.
        specialize (IH _ _ _ Hrest). cbv zeta in IH.
        cbn [sends flat_map app List.length Z.of_nat].
        destruct IH as [IH | IH]; [left; lia | right; lia].
    + injection Hs as <-.
      cbn [RequestsState.state RequestsState.outstanding RequestsState.calls].
      rewrite run_Nothing. cbn. left. lia.
Qed.

End LifeCounts.

Section LifeBounds.

Context `{Externals}.

Variables (now0 : time_point) (w : World) (destination : DestinationId)
  (type : RestVerb) (path : string) (payload : list Byte.byte)
  (timeout : duration) (headers : Headers) (retryNotFound : bool).

Let st0 := RequestsState.create now0 destination type path payload timeout
             headers retryNotFound.

Let life := lifecycle now0 w destination type path payload timeout headers
              retryNotFound.

(** X15: over the life of a request as many connections are leased as
    requests are sent, and the destination is resolved at least once for
    every request sent: every attempt resolves again. *)
Theorem every_send_has_its_lease (evs : list Event) :
  List.length (leases (trace (life evs)))
    = List.length (sends (trace (life evs)))
  /\ (List.length (sends (trace (life evs)))
      <= List.length (resolutions (trace (life evs))))%nat.
Proof.
  unfold life, lifecycle, sendRequestRetry. fold st0.
  destruct (RequestsState.sendRequest w st0) as [s |] eqn:Hs; [| cbn; lia].
  cbn [trace]. rewrite leases_app, sends_app, resolutions_app, !length_app.
  destruct (react_counts st0 RequestsState.TimerWaiting (TimerExpired w) s Hs)
    as (Hl & Hr & _).
  pose proof (run_counts evs (RequestsState.state s)
                (RequestsState.outstanding s)) as [Hl' Hr'].
  lia.
Qed.

(** X16: the timer of a request is allocated at most once, however often
    it is set. *)
Theorem timer_allocated_once (evs : list Event) :
  (List.length (timerAllocations (trace (life evs))) <= 1)%nat.
Proof.
  unfold life, lifecycle, sendRequestRetry. fold st0.
  destruct (RequestsState.sendRequest w st0) as [s |] eqn:Hs; [| cbn; lia].
  cbn [trace]. rewrite timerAllocations_app, length_app.
  destruct (react_timer st0 RequestsState.TimerWaiting (TimerExpired w) s Hs)
    as [[Hnone _] | (_ & _ & Hthere)].
  - rewrite Hnone. cbn. apply run_timer_once.
  - destruct (sendRequest_cases w st0 s Hs) as [Hst _].
    rewrite Hst in Hthere. cbn in Hthere. contradiction.
Qed.

(** X17: the number of requests a retrying request sends is bounded by its
    timeout.  When the clock does not run backwards and no wait expires
    before its due time, [n] requests are sent only if [n - 1] times
    200 ms is less than the timeout; a request whose timeout is at most
    200 ms is sent at most once. *)
Theorem attempts_bounded (evs : list Event) :
  now0 <= steady_clock_now w ->
  timely st0 RequestsState.SendInFlight (steady_clock_now w) evs ->
  let n := Z.of_nat (List.length (sends (trace (life evs)))) in
  (n <= 1 \/ milliseconds 200 * (n - 1) < timeout)
  /\ (timeout <= milliseconds 200 -> n <= 1).
Proof.
  intros Hclock Htimely n.
  assert (Hbound : n <= 1 \/ milliseconds 200 * (n - 1) < timeout).
  { subst n. unfold life, lifecycle, sendRequestRetry. fold st0.
    destruct (RequestsState.sendRequest w st0) as [s |] eqn:Hs;
      [| cbn; left; lia].
    cbn [trace]. rewrite sends_app, length_app, Nat2Z.inj_add.
    destruct (sendRequest_cases w st0 s Hs)
      as [Hst [(Ho & Hsd & _) | (Ho & _ & _ & p & ep & _ & _ & Hcalls)]].
    - rewrite Hsd, Ho, run_Nothing. cbn. left. lia.
    - rewrite Hcalls, Ho, Hst.
      pose proof (run_attempts_bounded evs st0 RequestsState.SendInFlight
                    (steady_clock_now w) Htimely) as Hrun.
      cbv zeta in Hrun. cbn [sends flat_map app List.length Z.of_nat].
      assert (Hend : RequestsState._endTime st0 = now0 + timeout) by reflexivity.
      rewrite Hend in Hrun.
      destruct Hrun as [Hrun | Hrun]; [left; lia | right; lia]. }
  split; [exact Hbound |].
  intros Hshort. unfold milliseconds, ticks_per_milli in *. lia.
Qed.

(** X18: a retry whose wait expires while the application server is
    stopping is not sent: the callback is called with the timeout code and
    a null response, whatever time is left, and the request is over. *)
Theorem stopping_ends_retry_with_timeout (st : RequestsState.t) (w' : World)
    (more : list Event) :
  isStopping w' = true ->
  run st RequestsState.TimerWaiting (TimerExpired w' :: more)
    = mkLifecycle st RequestsState.Nothing
        [Callback (mkResponse (RequestsState._destination st)
                     (errorToInt Timeout) None)]
        false.
Proof.
  intros Hstop. cbn [run react].
  rewrite (sendRequest_while_stopping w' st Hstop).
  cbn [RequestsState.state RequestsState.outstanding RequestsState.calls].
  rewrite run_Nothing. reflexivity.
Qed.

End LifeBounds.

(** ** The revision of the analyzers and its velocypack form *)

Section Analyzers.

Context `{ClusterTypesExternals}.

Lemma keys_distinct :
  NoDup [StaticStrings_AnalyzersRevision;
         StaticStrings_AnalyzersBuildingRevision;
         StaticStrings_AttrCoordinator;
         StaticStrings_AttrCoordinatorRebootId] ->
  String.eqb StaticStrings_AnalyzersRevision
    StaticStrings_AnalyzersBuildingRevision = false
  /\ String.eqb StaticStrings_AnalyzersRevision
       StaticStrings_AttrCoordinator = false
  /\ String.eqb StaticStrings_AnalyzersRevision
       StaticStrings_AttrCoordinatorRebootId = false
  /\ String.eqb StaticStrings_AnalyzersBuildingRevision
       StaticStrings_AttrCoordinator = false
  /\ String.eqb StaticStrings_AnalyzersBuildingRevision
       StaticStrings_AttrCoordinatorRebootId = false
  /\ String.eqb StaticStrings_AttrCoordinator
       StaticStrings_AttrCoordinatorRebootId = false.
Proof.
  intros Hnd.
  inversion Hnd as [| k1 l1 Hn1 Hnd1]; subst.
  inversion Hnd1 as [| k2 l2 Hn2 Hnd2]; subst.
  inversion Hnd2 as [| k3 l3 Hn3 _]; subst.
  cbn in Hn1, Hn2, Hn3.
  repeat split; apply String.eqb_neq; intros Heq; intuition congruence.
Qed.

(** X19: what [toVelocyPack] writes, [fromVelocyPack] reads back.  For a
    revision that passes the assertion of [toVelocyPack], and whose reboot
    id is 0 when it does not count as initialized, parsing the object
    written gives the revision again, the four attribute names being
    different. *)
Theorem fromVelocyPack_toVelocyPack (r : AnalyzersRevision.t)
    (s : velocypack.Slice) :
  NoDup [StaticStrings_AnalyzersRevision;
         StaticStrings_AnalyzersBuildingRevision;
         StaticStrings_AttrCoordinator;
         StaticStrings_AttrCoordinatorRebootId] ->
  (RebootId_initialized (AnalyzersRevision._rebootID r) = false ->
   AnalyzersRevision._rebootID r = 0) ->
  AnalyzersRevision.toVelocyPack r = Some s ->
  AnalyzersRevision.fromVelocyPack s = AnalyzersRevision.Revision r.
Proof.
  intros Hnd Hzero.
  destruct (keys_distinct Hnd) as (H12 & H13 & H14 & H23 & H24 & H34).
  destruct r as [rev brev sid rid].
  unfold AnalyzersRevision.toVelocyPack, AnalyzersRevision.nonEmpty.
  cbn [AnalyzersRevision._revision AnalyzersRevision._buildingRevision
       AnalyzersRevision._serverID AnalyzersRevision._rebootID] in *.
  destruct (String.eqb_spec sid EmptyString) as [-> | Hsid];
    destruct (RebootId_initialized rid) eqn:Hinit; cbn [negb andb orb];
    try discriminate; intros [= <-].
  - rewrite (Hzero eq_refl).
    unfold AnalyzersRevision.fromVelocyPack, velocypack.hasKey, velocypack.get.
    cbn [velocypack.isObject negb velocypack.lookup app].
    rewrite !String.eqb_refl, ?H12, ?H13, ?H14, ?H23, ?H24. reflexivity.
  - unfold AnalyzersRevision.fromVelocyPack, velocypack.hasKey, velocypack.get.
    cbn [velocypack.isObject negb velocypack.lookup app].
    rewrite !String.eqb_refl, ?H12, ?H13, ?H14, ?H23, ?H24, ?H34. reflexivity.
Qed.

(** X20: what a successful parse has read.  When [fromVelocyPack] returns
    a revision, the slice is an object whose two revision attributes are
    numbers, converted to the two revisions; the server id is the string
    under the coordinator attribute and empty when there is none; the
    reboot id is the number under its attribute and 0 when there is none. *)
Theorem fromVelocyPack_sound (s : velocypack.Slice) (r : AnalyzersRevision.t) :
  AnalyzersRevision.fromVelocyPack s = AnalyzersRevision.Revision r ->
  exists fields,
    s = velocypack.VObject fields
    /\ velocypack.getNumber_uint64
         (velocypack.lookup StaticStrings_AnalyzersRevision fields)
       = Some (AnalyzersRevision._revision r)
    /\ velocypack.getNumber_uint64
         (velocypack.lookup StaticStrings_AnalyzersBuildingRevision fields)
       = Some (AnalyzersRevision._buildingRevision r)
    /\ (velocypack.lookup StaticStrings_AttrCoordinator fields = velocypack.VNone
        /\ AnalyzersRevision._serverID r = EmptyString
        \/ velocypack.lookup StaticStrings_AttrCoordinator fields
           = velocypack.VString (AnalyzersRevision._serverID r))
    /\ (velocypack.lookup StaticStrings_AttrCoordinatorRebootId fields
        = velocypack.VNone
        /\ AnalyzersRevision._rebootID r = 0
        \/ velocypack.isNumber
             (velocypack.lookup StaticStrings_AttrCoordinatorRebootId fields)
           = true
           /\ velocypack.getNumber_uint64
                (velocypack.lookup StaticStrings_AttrCoordinatorRebootId fields)
              = Some (AnalyzersRevision._rebootID r)).
Proof.
  unfold AnalyzersRevision.fromVelocyPack, velocypack.hasKey.
  destruct s as [| | b | z | n | d | str | items | fields];
    cbn [velocypack.isObject negb]; try discriminate.
  cbn [velocypack.get].
  destruct (velocypack.isNumber (velocypack.lookup StaticStrings_AnalyzersRevision fields));
    cbn [negb]; [| discriminate].
  destruct (velocypack.isNumber
              (velocypack.lookup StaticStrings_AnalyzersBuildingRevision fields));
    cbn [negb]; [| discriminate].
  intros Hparse. exists fields. split; [reflexivity |].
  destruct (velocypack.lookup StaticStrings_AttrCoordinator fields) eqn:Hc;
    cbn [velocypack.isNone velocypack.isString negb andb] in Hparse;
    try discriminate;
    destruct (velocypack.lookup StaticStrings_AttrCoordinatorRebootId fields)
      eqn:Hr;
    cbn [velocypack.isNone velocypack.isNumber negb andb] in Hparse;
    try discriminate;
    destruct (velocypack.getNumber_uint64
                (velocypack.lookup StaticStrings_AnalyzersRevision fields));
    try (destruct (velocypack.getNumber_uint64 _); discriminate);
    try discriminate;
    destruct (velocypack.getNumber_uint64
                (velocypack.lookup StaticStrings_AnalyzersBuildingRevision fields));
    try (destruct (velocypack.getNumber_uint64 _); discriminate);
    try discriminate;
    cbn [velocypack.getString] in Hparse;
    try (destruct (velocypack.getNumber_uint64 _) eqn:Hnum;
         [| discriminate]);
    injection Hparse as <-; cbn; auto 10.
Qed.

(** X21: reading is more lenient than writing.  An object with both
    revisions, a coordinator that is not the empty string and no reboot id
    is read as a revision with reboot id 0; when 0 does not count as an
    initialized reboot id, the assertion of [toVelocyPack] fails on that
    revision. *)
Theorem parsed_revision_may_fail_assertion (fields : list (string * velocypack.Slice))
    (revision buildingRevision : Z) (id : string) :
  RebootId_initialized 0 = false ->
  id <> EmptyString ->
  velocypack.lookup StaticStrings_AnalyzersRevision fields
    = velocypack.VUInt revision ->
  velocypack.lookup StaticStrings_AnalyzersBuildingRevision fields
    = velocypack.VUInt buildingRevision ->
  velocypack.lookup StaticStrings_AttrCoordinator fields = velocypack.VString id ->
  velocypack.lookup StaticStrings_AttrCoordinatorRebootId fields
    = velocypack.VNone ->
  AnalyzersRevision.fromVelocyPack (velocypack.VObject fields)
    = AnalyzersRevision.Revision
        (AnalyzersRevision.mk revision buildingRevision id 0)
  /\ AnalyzersRevision.toVelocyPack
       (AnalyzersRevision.mk revision buildingRevision id 0) = None.
Proof.
  intros Hinit Hid Hrev Hbrev Hc Hr. split.
  - unfold AnalyzersRevision.fromVelocyPack, velocypack.hasKey, velocypack.get.
    rewrite Hrev, Hbrev, Hc, Hr. reflexivity.
  - unfold AnalyzersRevision.toVelocyPack, AnalyzersRevision.nonEmpty.
    cbn [AnalyzersRevision._serverID AnalyzersRevision._rebootID].
    rewrite Hinit.
    destruct (String.eqb_spec id EmptyString); [contradiction | reflexivity].
Qed.

End Analyzers.

(** ** The further properties on the samples *)


(** The path of the sample names no data base. *)
Lemma prepareRequest_database_witness :
  SystemDatabase <> EmptyString
  /\ database
       (prepareRequest (sampleWorld 1000) Post "/_api/document/c"%string
          samplePayload (seconds 1) [])
     = "_system"%string.
Proof.
  assert (Hsys : SystemDatabase <> EmptyString) by (cbn; discriminate).
  split; [exact Hsys |].
  apply (proj1 (proj2 (prepareRequest_database (sampleWorld 1000) Post
                         "/_api/document/c"%string samplePayload (seconds 1) []
                         Hsys))).
  reflexivity.
Defined.

(** The single attempt to a server the sample world does not know. *)
Lemma sendRequest_sends_once_or_is_canceled_witness :
  sendRequest (sampleWorld 1000) "server:UNKNOWN"%string Get
    "/_api/version"%string [] (seconds 1) []
  = Some {| calls := [Resolve "server:UNKNOWN"%string];
            ready := Some (mkResponse "server:UNKNOWN"%string
                             (errorToInt Canceled) None) |}
  /\ (leases [Resolve "server:UNKNOWN"%string] = []
      \/ resolutions [Resolve "server:UNKNOWN"%string]
         = ["server:UNKNOWN"%string]).
Proof.
  assert (Hd : sendRequest (sampleWorld 1000) "server:UNKNOWN"%string Get
                 "/_api/version"%string [] (seconds 1) []
               = Some {| calls := [Resolve "server:UNKNOWN"%string];
                         ready := Some (mkResponse "server:UNKNOWN"%string
                                          (errorToInt Canceled) None) |})
    by reflexivity.
  split; [exact Hd |].
  destruct (sendRequest_sends_once_or_is_canceled (sampleWorld 1000)
              "server:UNKNOWN"%string Get "/_api/version"%string []
              (seconds 1) [] _ Hd)
    as [(_ & Hl & _) | (_ & Hr & _)].
  - left. exact Hl.
  - right. exact Hr.
Defined.

(** The transport reports that the request was canceled. *)
Lemma handleResponse_other_error_witness :
  intToError (errorToInt Canceled) <> NoError
  /\ RequestsState.handleResponse (sampleState false) (errorToInt Canceled)
       None (milliseconds 300) (milliseconds 300)
     = Some (RequestsState.mkStep (sampleState false) RequestsState.Nothing
               [Callback (mkResponse "server:PRMR-1"%string
                            (errorToInt Canceled) None)]).
Proof.
  assert (Hn : intToError (errorToInt Canceled) <> NoError) by discriminate.
  assert (Hc : intToError (errorToInt Canceled) <> CouldNotConnect)
    by discriminate.
  assert (Ht : intToError (errorToInt Canceled) <> Timeout) by discriminate.
  split; [exact Hn |].
  exact (handleResponse_other_error (sampleState false) (errorToInt Canceled)
           None (milliseconds 300) (milliseconds 300) Hn Hc Ht).
Defined.

(** A retrying request to a server the sample world does not know. *)
Lemma unresolvable_destination_is_canceled_witness :
  resolveDestination (sampleWorld 1000) "server:UNKNOWN"%string = None
  /\ callbacks
       (trace
          (lifecycle 0 (sampleWorld 1000) "server:UNKNOWN"%string Get
             "/_api/version"%string [] (seconds 1) [] false
             [connectionFailureAt300]))
     = [mkResponse "server:UNKNOWN"%string (errorToInt Canceled) None].
Proof.
  assert (Hres : resolveDestination (sampleWorld 1000) "server:UNKNOWN"%string
                 = None) by reflexivity.
  split; [exact Hres |].
  rewrite (unresolvable_destination_is_canceled 0 (sampleWorld 1000)
             "server:UNKNOWN"%string Get "/_api/version"%string []
             (seconds 1) [] false [connectionFailureAt300]).
  - reflexivity.
  - vm_compute. discriminate.
  - reflexivity.
  - exact Hres.
Defined.

(** Two requests are sent within the one second of the sample request. *)
Lemma attempts_bounded_witness :
  0 <= steady_clock_now (sampleWorld 1000)
  /\ timely (sampleState false) RequestsState.SendInFlight
       (steady_clock_now (sampleWorld 1000))
       [connectionFailureAt300; TimerExpired (sampleWorld (milliseconds 600))]
  /\ (Z.of_nat
        (List.length
           (sends
              (trace
                 (sampleLife
                    [connectionFailureAt300;
                     TimerExpired (sampleWorld (milliseconds 600))]))))
      <= 1
      \/ milliseconds 200
         * (Z.of_nat
              (List.length
                 (sends
                    (trace
                       (sampleLife
                          [connectionFailureAt300;
                           TimerExpired (sampleWorld (milliseconds 600))]))))
            - 1)
         < seconds 1).
Proof.
  assert (Hclock : 0 <= steady_clock_now (sampleWorld 1000))
    by (vm_compute; discriminate).
  assert (Htimely :
    timely (sampleState false) RequestsState.SendInFlight
      (steady_clock_now (sampleWorld 1000))
      [connectionFailureAt300; TimerExpired (sampleWorld (milliseconds 600))]).
  { cbn [timely onTime connectionFailureAt300].
    split; [vm_compute; split; discriminate |].
    change (react (sampleState false) RequestsState.SendInFlight
              (SendCompleted (errorToInt CouldNotConnect) None
                 (milliseconds 300) (milliseconds 300)))
      with (Some (RequestsState.mkStep
                    (RequestsState.set_timer (sampleState false) (milliseconds 600))
                    RequestsState.TimerWaiting
                    [NewSteadyTimer; ExpiresAt (milliseconds 600); AsyncWait])).
    cbv beta iota.
    cbn [RequestsState.state RequestsState.outstanding eventClock].
    split.
    - split; [vm_compute; discriminate |].
      intros _ d Hd. injection Hd as <-. vm_compute. discriminate.
    - destruct (react _ _ _); exact I. }
  split; [exact Hclock |].
  split; [exact Htimely |].
  exact (proj1 (attempts_bounded 0 (sampleWorld 1000) "server:PRMR-1"%string
                  Post "/_api/document/c"%string samplePayload (seconds 1) []
                  false
                  [connectionFailureAt300;
                   TimerExpired (sampleWorld (milliseconds 600))]
                  Hclock Htimely)).
Defined.

(** The wait of the sample request expires while the server is stopping. *)
Lemma stopping_ends_retry_with_timeout_witness :
  isStopping (sampleWorldStopping (milliseconds 600)) = true
  /\ run (RequestsState.set_timer (sampleState false) (milliseconds 600))
       RequestsState.TimerWaiting
       [TimerExpired (sampleWorldStopping (milliseconds 600))]
     = mkLifecycle
         (RequestsState.set_timer (sampleState false) (milliseconds 600))
         RequestsState.Nothing
         [Callback (mkResponse "server:PRMR-1"%string (errorToInt Timeout) None)]
         false.
Proof.
  assert (Hstop : isStopping (sampleWorldStopping (milliseconds 600)) = true)
    by reflexivity.
  split; [exact Hstop |].
  exact (stopping_ends_retry_with_timeout
           (RequestsState.set_timer (sampleState false) (milliseconds 600))
           (sampleWorldStopping (milliseconds 600)) [] Hstop).
Defined.

(** The sample request retried once and answered. *)
Lemma callback_exactly_once_witness :
  ~ In TimerAborted
      [connectionFailureAt300;
       TimerExpired (sampleWorld (milliseconds 600));
       SendCompleted (errorToInt NoError) (Some (fuerte.mkResponse 200 []))
         (milliseconds 700) (milliseconds 700)]
  /\ exists r,
       callbacks
         (trace
            (lifecycle 0 (sampleWorld 1000) "server:PRMR-1"%string Post
               "/_api/document/c"%string samplePayload (seconds 1) [] false
               [connectionFailureAt300;
                TimerExpired (sampleWorld (milliseconds 600));
                SendCompleted (errorToInt NoError)
                  (Some (fuerte.mkResponse 200 []))
                  (milliseconds 700) (milliseconds 700)]))
       = [r].
Proof.
  assert (Hab : ~ In TimerAborted
                  [connectionFailureAt300;
                   TimerExpired (sampleWorld (milliseconds 600));
                   SendCompleted (errorToInt NoError)
                     (Some (fuerte.mkResponse 200 []))
                     (milliseconds 700) (milliseconds 700)]).
  { intros [Hin | [Hin | [Hin | []]]]; discriminate. }
  split; [exact Hab |].
  destruct (callback_exactly_once 0 (sampleWorld 1000) "server:PRMR-1"%string
              Post "/_api/document/c"%string samplePayload (seconds 1) [] false
              _ Hab) as [r [Hr _]].
  - vm_compute. reflexivity.
  - vm_compute. reflexivity.
  - exists r. exact Hr.
Defined.

(** The sample revision, written and read back. *)
Lemma fromVelocyPack_toVelocyPack_witness :
  AnalyzersRevision.toVelocyPack sampleRevision
  = Some (velocypack.VObject
            [("revision"%string, velocypack.VUInt 7);
             ("buildingRevision"%string, velocypack.VUInt 8);
             ("coordinator"%string, velocypack.VString "CRDN-1");
             ("coordinatorRebootId"%string, velocypack.VUInt 3)])
  /\ AnalyzersRevision.fromVelocyPack
       (velocypack.VObject
          [("revision"%string, velocypack.VUInt 7);
           ("buildingRevision"%string, velocypack.VUInt 8);
           ("coordinator"%string, velocypack.VString "CRDN-1");
           ("coordinatorRebootId"%string, velocypack.VUInt 3)])
     = AnalyzersRevision.Revision sampleRevision.
Proof.
  assert (Hto : AnalyzersRevision.toVelocyPack sampleRevision
                = Some (velocypack.VObject
                          [("revision"%string, velocypack.VUInt 7);
                           ("buildingRevision"%string, velocypack.VUInt 8);
                           ("coordinator"%string, velocypack.VString "CRDN-1");
                           ("coordinatorRebootId"%string, velocypack.VUInt 3)]))
    by reflexivity.
  split; [exact Hto |].
  apply (fromVelocyPack_toVelocyPack sampleRevision).
  - repeat constructor; cbn; intuition discriminate.
  - cbn. discriminate.
  - exact Hto.
Defined.

(** An object with the two revisions only. *)
Lemma fromVelocyPack_sound_witness :
  AnalyzersRevision.fromVelocyPack
    (velocypack.VObject
       [("revision"%string, velocypack.VUInt 7);
        ("buildingRevision"%string, velocypack.VInt 8)])
  = AnalyzersRevision.Revision (AnalyzersRevision.mk 7 8 EmptyString 0)
  /\ exists fields,
       velocypack.VObject
         [("revision"%string, velocypack.VUInt 7);
          ("buildingRevision"%string, velocypack.VInt 8)]
       = velocypack.VObject fields
       /\ velocypack.getNumber_uint64 (velocypack.lookup "revision" fields)
          = Some 7.
Proof.
  assert (Hp : AnalyzersRevision.fromVelocyPack
                 (velocypack.VObject
                    [("revision"%string, velocypack.VUInt 7);
                     ("buildingRevision"%string, velocypack.VInt 8)])
               = AnalyzersRevision.Revision
                   (AnalyzersRevision.mk 7 8 EmptyString 0))
    by reflexivity.
  split; [exact Hp |].
  destruct (fromVelocyPack_sound _ _ Hp) as (fields & Hs & Hrev & _).
  exists fields. split; [exact Hs | exact Hrev].
Defined.

(** A coordinator without reboot id. *)
Lemma parsed_revision_may_fail_assertion_witness :
  RebootId_initialized 0 = false
  /\ AnalyzersRevision.fromVelocyPack
       (velocypack.VObject
          [("revision"%string, velocypack.VUInt 7);
           ("buildingRevision"%string, velocypack.VUInt 8);
           ("coordinator"%string, velocypack.VString "CRDN-1")])
     = AnalyzersRevision.Revision (AnalyzersRevision.mk 7 8 "CRDN-1" 0)
  /\ AnalyzersRevision.toVelocyPack (AnalyzersRevision.mk 7 8 "CRDN-1" 0)
     = None.
Proof.
  assert (Hinit : RebootId_initialized 0 = false) by reflexivity.
  split; [exact Hinit |].
  apply (parsed_revision_may_fail_assertion
           [("revision"%string, velocypack.VUInt 7);
            ("buildingRevision"%string, velocypack.VUInt 8);
            ("coordinator"%string, velocypack.VString "CRDN-1")]
           7 8 "CRDN-1" Hinit).
  - discriminate.
  - reflexivity.
  - reflexivity.
  - reflexivity.
  - reflexivity.
Defined.
